(** * SceneValidator: a shallow embedding of tools/scene-validator/src/main.py

    The Python module validates a scene description (a JSON document) against
    a rule configuration (another JSON document) and accumulates findings in
    a mutable [ValidationResult].  The embedding keeps the dynamic typing of
    the source: scene and configuration are arbitrary JSON-born Python values,
    every Python operation that can raise is a function into [outcome], and
    the methods that mutate a [ValidationResult] are computations in a small
    state-and-exception monad in which the state written before a raise is
    kept, as it is for an object mutated in place. *)

From Stdlib Require Import List ZArith QArith Bool Ascii String Lia DecimalString.
Import ListNotations.

Local Close Scope Q_scope.
Set Warnings "-register-all".
Local Open Scope list_scope.

(** ** Python strings

    A Python [str] is a sequence of Unicode code points. *)

Definition pystr := list N.

(** An ASCII literal of the source as a Python string. *)
Definition lit (s : string) : pystr :=
  map N_of_ascii (list_ascii_of_string s).

Fixpoint pystr_eqb (s t : pystr) : bool :=
  match s, t with
  | [], [] => true
  | c :: s', d :: t' => N.eqb c d && pystr_eqb s' t'
  | _, _ => false
  end.

Inductive cmp_op := OpLt | OpGt.

Definition op_symbol (op : cmp_op) : pystr :=
  match op with OpLt => lit "<" | OpGt => lit ">" end.

(** Lexicographic comparison of strings by code point. *)
Fixpoint pystr_cmp (op : cmp_op) (s t : pystr) : bool :=
  match s, t with
  | [], [] => false
  | [], _ :: _ => match op with OpLt => true | OpGt => false end
  | _ :: _, [] => match op with OpLt => false | OpGt => true end
  | c :: s', d :: t' =>
      if N.eqb c d then pystr_cmp op s' t'
      else match op with OpLt => N.ltb c d | OpGt => N.ltb d c end
  end.

(** [s.startswith(p)] *)
Fixpoint startswith (p s : pystr) : bool :=
  match p, s with
  | [], _ => true
  | c :: p', d :: s' => N.eqb c d && startswith p' s'
  | _ :: _, [] => false
  end.

(** [s.endswith(p)] *)
Definition endswith (p s : pystr) : bool :=
  startswith (rev p) (rev s).

(** [t in s] for two strings: [t] occurs in [s] as a contiguous run. *)
Fixpoint is_substring (t s : pystr) : bool :=
  startswith t s ||
  match s with
  | [] => false
  | _ :: s' => is_substring t s'
  end.

(** The code points for which [str.isspace] holds; [str.strip()] removes
    exactly these from both ends. *)
Definition is_space (c : N) : bool :=
  ((9 <=? c) && (c <=? 13) || (28 <=? c) && (c <=? 32)
   || (c =? 133) || (c =? 160) || (c =? 5760)
   || (8192 <=? c) && (c <=? 8202)
   || (c =? 8232) || (c =? 8233) || (c =? 8239) || (c =? 8287)
   || (c =? 12288))%N.

Fixpoint lstrip (s : pystr) : pystr :=
  match s with
  | [] => []
  | c :: s' => if is_space c then lstrip s' else s
  end.

Definition strip (s : pystr) : pystr :=
  rev (lstrip (rev (lstrip s))).

(** [s.split(sep)] for a one-character separator. *)
Fixpoint split_on (sep : N) (s : pystr) : list pystr :=
  match s with
  | [] => [[]]
  | c :: s' =>
      if N.eqb c sep then [] :: split_on sep s'
      else match split_on sep s' with
           | [] => [[c]]
           | w :: ws => (c :: w) :: ws
           end
  end.

(** [s.split(sep, 1)]: at most one split, at the first separator. *)
Fixpoint split_once (sep : N) (s : pystr) : list pystr :=
  match s with
  | [] => [[]]
  | c :: s' =>
      if N.eqb c sep then [[]; s']
      else match split_once sep s' with
           | w :: ws => (c :: w) :: ws
           | [] => [[c]]
           end
  end.

(** [sep.join(parts)] *)
Fixpoint join (sep : pystr) (parts : list pystr) : pystr :=
  match parts with
  | [] => []
  | [p] => p
  | p :: ps => p ++ sep ++ join sep ps
  end.

(** Decimal text of an integer, as [str(n)] gives it. *)
Definition str_of_Z (z : Z) : pystr :=
  lit (NilZero.string_of_int (Z.to_int z)).

Definition str_of_nat (n : nat) : pystr := str_of_Z (Z.of_nat n).

(** ** Python values born from JSON

    [json.load] yields [None], [bool], [int], [float], [str], [list] and
    [dict] with string keys.  A float is given by its value: not-a-number,
    an infinity, or a rational (every finite double is one; comparisons of
    Python numbers are exact, also between [int] and [float]). *)

Inductive pyfloat :=
| FNan
| FInf (negative : bool)
| FFin (q : Q).

Inductive json :=
| JNull
| JBool (b : bool)
| JInt (n : Z)
| JFloat (f : pyfloat)
| JStr (s : pystr)
| JList (l : list json)
| JDict (d : list (pystr * json)).

(** A [dict] keeps its items in insertion order with distinct keys; lookup
    finds the item with the given key. *)
Fixpoint dict_get (k : pystr) (d : list (pystr * json)) : option json :=
  match d with
  | [] => None
  | (k', v) :: d' => if pystr_eqb k k' then Some v else dict_get k d'
  end.

Definition dict_has (k : pystr) (d : list (pystr * json)) : bool :=
  match dict_get k d with Some _ => true | None => false end.

(** [type(v).__name__] *)
Definition type_name (v : json) : pystr :=
  match v with
  | JNull => lit "NoneType"
  | JBool _ => lit "bool"
  | JInt _ => lit "int"
  | JFloat _ => lit "float"
  | JStr _ => lit "str"
  | JList _ => lit "list"
  | JDict _ => lit "dict"
  end.

(** [bool(v)], the truth value tested by [if not v]. *)
Definition py_truthy (v : json) : bool :=
  match v with
  | JNull => false
  | JBool b => b
  | JInt n => negb (Z.eqb n 0)
  | JFloat FNan => true
  | JFloat (FInf _) => true
  | JFloat (FFin q) => negb (Qeq_bool q (inject_Z 0))
  | JStr s => match s with [] => false | _ => true end
  | JList l => match l with [] => false | _ => true end
  | JDict d => match d with [] => false | _ => true end
  end.

(** The numeric value of a number ([bool] is a subclass of [int]). *)
Definition num_of (v : json) : option pyfloat :=
  match v with
  | JBool b => Some (FFin (inject_Z (if b then 1 else 0)))
  | JInt n => Some (FFin (inject_Z n))
  | JFloat f => Some f
  | _ => None
  end.

Definition is_numeric (v : json) : bool :=
  match num_of v with Some _ => true | None => false end.

Definition is_str (v : json) : bool :=
  match v with JStr _ => true | _ => false end.

Definition float_eqb (x y : pyfloat) : bool :=
  match x, y with
  | FFin p, FFin q => Qeq_bool p q
  | FInf a, FInf b => Bool.eqb a b
  | _, _ => false
  end.

Definition float_ltb (x y : pyfloat) : bool :=
  match x, y with
  | FNan, _ | _, FNan => false
  | FInf a, FInf b => a && negb b
  | FInf a, FFin _ => a
  | FFin _, FInf b => negb b
  | FFin p, FFin q => negb (Qle_bool q p)
  end.

Definition float_cmp (op : cmp_op) (x y : pyfloat) : bool :=
  match op with OpLt => float_ltb x y | OpGt => float_ltb y x end.

(** [a == b] *)
Fixpoint py_eq (a b : json) {struct a} : bool :=
  match a, b with
  | JNull, JNull => true
  | JStr s, JStr t => pystr_eqb s t
  | JList l, JList m =>
      (fix go (l m : list json) : bool :=
         match l, m with
         | [], [] => true
         | x :: l', y :: m' => py_eq x y && go l' m'
         | _, _ => false
         end) l m
  | JDict d, JDict e =>
      Nat.eqb (List.length d) (List.length e) &&
      (fix go (d : list (pystr * json)) : bool :=
         match d with
         | [] => true
         | (k, v) :: d' =>
             match dict_get k e with
             | Some v' => py_eq v v'
             | None => false
             end && go d'
         end) d
  | _, _ =>
      match num_of a, num_of b with
      | Some x, Some y => float_eqb x y
      | _, _ => false
      end
  end.

(** [a is b or a == b], the test that list membership and the comparison of
    containers apply to items.  Identity differs from equality only for a
    NaN, and [json.load] gives every NaN the same object. *)
Fixpoint py_same (a b : json) {struct a} : bool :=
  match a, b with
  | JFloat FNan, JFloat FNan => true
  | JNull, JNull => true
  | JStr s, JStr t => pystr_eqb s t
  | JList l, JList m =>
      (fix go (l m : list json) : bool :=
         match l, m with
         | [], [] => true
         | x :: l', y :: m' => py_same x y && go l' m'
         | _, _ => false
         end) l m
  | JDict d, JDict e =>
      Nat.eqb (List.length d) (List.length e) &&
      (fix go (d : list (pystr * json)) : bool :=
         match d with
         | [] => true
         | (k, v) :: d' =>
             match dict_get k e with
             | Some v' => py_same v v'
             | None => false
             end && go d'
         end) d
  | _, _ =>
      match num_of a, num_of b with
      | Some x, Some y => float_eqb x y
      | _, _ => false
      end
  end.

(** ** Exceptions

    Every exception the module can meet is an instance of [Exception]; it is
    kept as its class and the text [str(e)] that the handlers format. *)

Inductive exn_class :=
| KeyError
| TypeError
| AttributeError
| ValueError
| FileNotFoundError
| JSONDecodeError
| OtherException.

Record exn := Exn { exn_class_of : exn_class; str_exn : pystr }.

Inductive outcome (A : Type) :=
| Ok (a : A)
| Raise (e : exn).

Arguments Ok {A} a.
Arguments Raise {A} e.

Definition raises {A} (o : outcome A) : bool :=
  match o with Ok _ => false | Raise _ => true end.

(** ** Dynamic operations of the interpreter *)

(** [v[k]] for a string key [k].  The keys the module subscripts with are
    plain identifiers, whose [repr] is the key between single quotes. *)
Definition py_getitem (v : json) (k : pystr) : outcome json :=
  match v with
  | JDict d =>
      match dict_get k d with
      | Some x => Ok x
      | None => Raise (Exn KeyError (lit "'" ++ k ++ lit "'"))
      end
  | JList _ =>
      Raise (Exn TypeError (lit "list indices must be integers or slices, not str"))
  | JStr _ =>
      Raise (Exn TypeError (lit "string indices must be integers, not 'str'"))
  | _ =>
      Raise (Exn TypeError (lit "'" ++ type_name v ++ lit "' object is not subscriptable"))
  end.

(** [item in container] *)
Definition py_contains (container item : json) : outcome bool :=
  match container with
  | JDict d =>
      match item with
      | JStr k => Ok (dict_has k d)
      | JList _ | JDict _ =>
          Raise (Exn TypeError (lit "unhashable type: '" ++ type_name item ++ lit "'"))
      | _ => Ok false
      end
  | JList l => Ok (existsb (fun x => py_same x item) l)
  | JStr s =>
      match item with
      | JStr t => Ok (is_substring t s)
      | _ =>
          Raise (Exn TypeError
                   (lit "'in <string>' requires string as left operand, not "
                    ++ type_name item))
      end
  | _ =>
      Raise (Exn TypeError
               (lit "argument of type '" ++ type_name container
                ++ lit "' is not iterable"))
  end.

(** The items a [for] loop visits. *)
Definition py_iter (v : json) : outcome (list json) :=
  match v with
  | JList l => Ok l
  | JStr s => Ok (map (fun c => JStr [c]) s)
  | JDict d => Ok (map (fun kv => JStr (fst kv)) d)
  | _ =>
      Raise (Exn TypeError (lit "'" ++ type_name v ++ lit "' object is not iterable"))
  end.

(** The items of [sep.join(v)] must all be strings. *)
Fixpoint join_items (i : nat) (items : list json) : outcome (list pystr) :=
  match items with
  | [] => Ok []
  | JStr s :: rest =>
      match join_items (S i) rest with
      | Ok ss => Ok (s :: ss)
      | Raise e => Raise e
      end
  | x :: _ =>
      Raise (Exn TypeError
               (lit "sequence item " ++ str_of_nat i
                ++ lit ": expected str instance, " ++ type_name x ++ lit " found"))
  end.

Definition py_join (sep : pystr) (v : json) : outcome pystr :=
  match py_iter v with
  | Ok items =>
      match join_items 0 items with
      | Ok ss => Ok (join sep ss)
      | Raise e => Raise e
      end
  | Raise _ => Raise (Exn TypeError (lit "can only join an iterable"))
  end.

Definition unorderable (op : cmp_op) (a b : json) : exn :=
  Exn TypeError
    (lit "'" ++ op_symbol op ++ lit "' not supported between instances of '"
     ++ type_name a ++ lit "' and '" ++ type_name b ++ lit "'").

(** [a < b] and [a > b]: numbers by value, strings and lists
    lexicographically (a list at the first position where the items are
    neither identical nor equal), anything else is a [TypeError]. *)
Fixpoint py_cmp (op : cmp_op) (a b : json) {struct a} : outcome bool :=
  match a, b with
  | JStr s, JStr t => Ok (pystr_cmp op s t)
  | JList l, JList m =>
      (fix go (l m : list json) : outcome bool :=
         match l, m with
         | [], [] => Ok false
         | [], _ :: _ => Ok (match op with OpLt => true | OpGt => false end)
         | _ :: _, [] => Ok (match op with OpLt => false | OpGt => true end)
         | x :: l', y :: m' => if py_same x y then go l' m' else py_cmp op x y
         end) l m
  | _, _ =>
      match num_of a, num_of b with
      | Some x, Some y => Ok (float_cmp op x y)
      | _, _ => Raise (unorderable op a b)
      end
  end.

Definition no_strip (v : json) : exn :=
  Exn AttributeError (lit "'" ++ type_name v ++ lit "' object has no attribute 'strip'").

(** [v.strip()]: only [str] has the method. *)
Definition py_strip (v : json) : outcome pystr :=
  match v with
  | JStr s => Ok (strip s)
  | _ => Raise (no_strip v)
  end.

(** ** ValidationResult *)

Record ValidationResult := mkValidationResult {
  valid : bool;
  issues : list pystr;
  warnings : list pystr;
  suggestions : list pystr;
  scene_data : json;           (* [None] until the scene is snapshotted *)
  validation_time : pystr      (* the creation time, in ISO format *)
}.

(** [ValidationResult()], created at clock reading [now]. *)
Definition new_ValidationResult (now : pystr) : ValidationResult :=
  {| valid := true; issues := []; warnings := []; suggestions := [];
     scene_data := JNull; validation_time := now |}.

Definition add_issue (issue : pystr) (self : ValidationResult) : ValidationResult :=
  {| valid := false;
     issues := issues self ++ [issue];
     warnings := warnings self;
     suggestions := suggestions self;
     scene_data := scene_data self;
     validation_time := validation_time self |}.

Definition add_warning (warning : pystr) (self : ValidationResult) : ValidationResult :=
  {| valid := valid self;
     issues := issues self;
     warnings := warnings self ++ [warning];
     suggestions := suggestions self;
     scene_data := scene_data self;
     validation_time := validation_time self |}.

Definition add_suggestion (suggestion : pystr) (self : ValidationResult) : ValidationResult :=
  {| valid := valid self;
     issues := issues self;
     warnings := warnings self;
     suggestions := suggestions self ++ [suggestion];
     scene_data := scene_data self;
     validation_time := validation_time self |}.

(** [result.scene_data = v] *)
Definition set_scene_data (v : json) (self : ValidationResult) : ValidationResult :=
  {| valid := valid self;
     issues := issues self;
     warnings := warnings self;
     suggestions := suggestions self;
     scene_data := v;
     validation_time := validation_time self |}.

Definition is_valid (self : ValidationResult) : bool := valid self.

Definition get_issues (self : ValidationResult) : list pystr := issues self.

(** The three mutators, as data, to speak about sequences of them. *)
Inductive result_op :=
| AddIssue (s : pystr)
| AddWarning (s : pystr)
| AddSuggestion (s : pystr).

Definition apply_op (self : ValidationResult) (o : result_op) : ValidationResult :=
  match o with
  | AddIssue s => add_issue s self
  | AddWarning s => add_warning s self
  | AddSuggestion s => add_suggestion s self
  end.

Definition apply_ops (ops : list result_op) (self : ValidationResult) : ValidationResult :=
  fold_left apply_op ops self.

(** ** Methods that write to a result and may raise

    A method receives the result object, mutates it and either returns or
    raises; what it wrote before raising stays written. *)

Definition M (A : Type) : Type := ValidationResult -> ValidationResult * outcome A.

Definition ret {A} (a : A) : M A := fun r => (r, Ok a).

Definition bind {A B} (m : M A) (k : A -> M B) : M B :=
  fun r =>
    match m r with
    | (r', Ok a) => k a r'
    | (r', Raise e) => (r', Raise e)
    end.

(** A pure operation of the interpreter inside a method. *)
Definition eval {A} (o : outcome A) : M A := fun r => (r, o).

(** A mutator of the result as a statement. *)
Definition write (f : ValidationResult -> ValidationResult) : M unit :=
  fun r => (f r, Ok tt).

Notation "x <- m ;; k" := (bind m (fun x => k))
  (at level 61, m at next level, right associativity).
Notation "m ;; k" := (bind m (fun _ => k))
  (at level 61, right associativity).

(** [for x in xs: body(x)] *)
Fixpoint for_each {A} (xs : list A) (body : A -> M unit) : M unit :=
  match xs with
  | [] => ret tt
  | x :: xs' => body x ;; for_each xs' body
  end.

(** [enumerate(xs)], counting from [i]. *)
Fixpoint enumerate_from {A} (i : nat) (xs : list A) : list (nat * A) :=
  match xs with
  | [] => []
  | x :: xs' => (i, x) :: enumerate_from (S i) xs'
  end.

Definition enumerate {A} (xs : list A) : list (nat * A) := enumerate_from 0 xs.

(** [ValidationResult.summary] *)

(** One section of [summary]: nothing for an empty list, otherwise a blank
    line, the title and the items numbered from 1. *)
Definition summary_section (title : pystr) (items : list pystr) : pystr :=
  match items with
  | [] => []
  | _ =>
      [10%N] ++ title ++ lit ":" ++ [10%N]
      ++ List.concat (map (fun ie : nat * pystr =>
                             str_of_nat (fst ie) ++ lit ". " ++ snd ie ++ [10%N])
                        (enumerate_from 1 items))
  end.

Definition summary (self : ValidationResult) : pystr :=
  let status := if valid self then lit "VALID" else lit "INVALID" in
  lit "Validation Status: " ++ status ++ [10%N]
  ++ summary_section (lit "Issues") (issues self)
  ++ summary_section (lit "Warnings") (warnings self)
  ++ summary_section (lit "Suggestions") (suggestions self).

Definition try_catch {A} (body : M A) (handler : exn -> M A) : M A :=
  fun r =>
    match body r with
    | (r', Ok a) => (r', Ok a)
    | (r', Raise e) => handler e r'
    end.

(** ** The world outside the interpreter *)

(** A generative model handle: [generate_content(prompt).text], which
    answers with text or raises. *)
Definition gemini_model_t := pystr -> outcome pystr.

Record World := mkWorld {
  (** [datetime.now()] *)
  clock : pystr;
  (** [open(path, 'r')] followed by [json.load] *)
  read_json : pystr -> outcome json;
  (** [os.environ.get("GEMINI_API_KEY")] *)
  environ_GEMINI_API_KEY : option pystr;
  (** [genai.configure(api_key=...)] *)
  genai_configure : pystr -> outcome unit;
  (** [genai.GenerativeModel(model_name)] *)
  genai_GenerativeModel : json -> outcome gemini_model_t;
  (** the error, if any, with which [open(path, "w")] fails *)
  open_w_error : pystr -> option exn;
  (** the failure, if any, of writing a text to the file opened at a path
      (a character that the encoding cannot take, a full disk): how many
      characters reached the file, and the error *)
  write_error : pystr -> pystr -> option (nat * exn);
  (** the failure, if any, of [print(text)]: how many characters of the
      line reached standard output, and the error *)
  print_error : pystr -> option (nat * exn)
}.

(** The files written so far, latest first. *)
Definition FS := list (pystr * pystr).

Definition fs_write (path content : pystr) (fs : FS) : FS := (path, content) :: fs.

(** Writing [content] to the file just opened (and so emptied) at [path]:
    when the write fails the file keeps what was written before. *)
Definition write_file (w : World) (path content : pystr) (fs : FS)
    : FS * outcome unit :=
  match write_error w path content with
  | None => (fs_write path content fs, Ok tt)
  | Some (n, e) => (fs_write path (firstn n content) fs, Raise e)
  end.

(** [print(text)] onto the characters [out] printed so far. *)
Definition py_print (w : World) (text : pystr) (out : pystr) : pystr * outcome unit :=
  match print_error w text with
  | None => (out ++ text ++ [10%N], Ok tt)
  | Some (n, e) => (out ++ firstn n (text ++ [10%N]), Raise e)
  end.

Definition dq : pystr := [34%N].

Definition text_of_lines (ls : list pystr) : pystr := join [10%N] ls.

Definition html_head_a : pystr :=
  text_of_lines
    [ lit "<!DOCTYPE html>";
      lit "<html>";
      lit "<head>";
      lit "    <title>Scene Validation Report</title>";
      lit "    <style>";
      lit "        body { font-family: Arial, sans-serif; line-height: 1.6; margin: 20px; }";
      lit "        h1 { color: #333; }";
      lit "        .report-header { display: flex; justify-content: space-between; }";
      lit "        .status { padding: 10px; border-radius: 5px; font-weight: bold; }";
      lit "        .valid { background-color: #dff0d8; color: #3c763d; }";
      lit "        .invalid { background-color: #f2dede; color: #a94442; }";
      lit "        .section { margin: 20px 0; }";
      lit "        .issue { background-color: #f2dede; padding: 10px; margin: 5px 0; border-left: 4px solid #a94442; }";
      lit "        .warning { background-color: #fcf8e3; padding: 10px; margin: 5px 0; border-left: 4px solid #8a6d3b; }";
      lit "        .suggestion { background-color: #d9edf7; padding: 10px; margin: 5px 0; border-left: 4px solid #31708f; }";
      lit "        pre { background-color: #f5f5f5; padding: 10px; overflow: auto; }";
      lit "    </style>";
      lit "</head>";
      lit "<body>";
      lit "    <h1>Scene Validation Report</h1>";
      lit "    ";
      lit "    <div class=" ++ dq ++ lit "report-header" ++ dq ++ lit ">";
      lit "        <div class=" ++ dq ++ lit "status " ].

Definition html_head_b : pystr :=
  text_of_lines
    [ dq ++ lit ">";
      lit "            Status: " ].

Definition html_head_c : pystr :=
  text_of_lines
    [ [];
      lit "        </div>";
      lit "        <div class=" ++ dq ++ lit "timestamp" ++ dq ++ lit ">";
      lit "            Generated: " ].

Definition html_head_d : pystr :=
  text_of_lines
    [ [];
      lit "        </div>";
      lit "    </div>";
      lit "    " ].

Definition html_issues_open : pystr :=
  text_of_lines
    [ [];
      lit "    <div class=" ++ dq ++ lit "section" ++ dq ++ lit ">";
      lit "        <h2>Issues</h2>";
      lit "    " ].

Definition html_warnings_open : pystr :=
  text_of_lines
    [ [];
      lit "    <div class=" ++ dq ++ lit "section" ++ dq ++ lit ">";
      lit "        <h2>Warnings</h2>";
      lit "    " ].

Definition html_suggestions_open : pystr :=
  text_of_lines
    [ [];
      lit "    <div class=" ++ dq ++ lit "section" ++ dq ++ lit ">";
      lit "        <h2>Suggestions</h2>";
      lit "    " ].

Definition html_scene_open : pystr :=
  text_of_lines
    [ [];
      lit "    <div class=" ++ dq ++ lit "section" ++ dq ++ lit ">";
      lit "        <h2>Scene Data</h2>";
      lit "        <pre>" ].

Definition html_scene_close : pystr :=
  text_of_lines
    [ lit "</pre>";
      lit "    </div>";
      lit "    " ].

Definition html_tail : pystr :=
  text_of_lines
    [ [];
      lit "</body>";
      lit "</html>";
      lit "        " ].

Definition prompt_before : pystr :=
  text_of_lines
    [ [];
      lit "        You are an expert media production consultant specializing in scene structure and continuity.";
      lit "        ";
      lit "        Please analyze the following scene data and provide suggestions for improvement, focusing on:";
      lit "        1. Structural issues that could impact production";
      lit "        2. Potential continuity problems";
      lit "        3. Efficiency improvements";
      lit "        4. Best practices for this type of scene";
      lit "        ";
      lit "        Format your response as a bulleted list of specific, actionable suggestions.";
      lit "        ";
      lit "        Scene data:";
      lit "        ```json";
      lit "        " ].

Definition prompt_after : pystr :=
  text_of_lines
    [ [];
      lit "        ```";
      lit "        " ].

Definition unsupported_format : exn :=
  Exn ValueError (lit "Unsupported report format. Use .json or .html").

Section Validator.

(** [str(v)] of a float, a list or a dict, and [json.dumps(v, indent=2)]:
    library functions whose text no rule depends on. *)
Variable repr_other : json -> pystr.
Variable json_dumps : json -> pystr.

(** The text an f-string substitutes for [{v}]. *)
Definition py_str (v : json) : pystr :=
  match v with
  | JNull => lit "None"
  | JBool true => lit "True"
  | JBool false => lit "False"
  | JInt n => str_of_Z n
  | JStr s => s
  | _ => repr_other v
  end.

(** *** ValidationResult.export_report *)

Definition html_list (open_section item_class : pystr) (items : list pystr) : pystr :=
  match items with
  | [] => []
  | _ =>
      open_section
      ++ List.concat (map (fun item =>
                        lit "        <div class=" ++ dq ++ item_class ++ dq ++ lit ">"
                        ++ item ++ lit "</div>" ++ [10%N]) items)
      ++ lit "    </div>" ++ [10%N]
  end.

Definition _generate_html_report (self : ValidationResult) : pystr :=
  let valid_class := if valid self then lit "valid" else lit "invalid" in
  html_head_a ++ valid_class ++ html_head_b
  ++ (if valid self then lit "VALID" else lit "INVALID")
  ++ html_head_c ++ validation_time self ++ html_head_d
  ++ html_list html_issues_open (lit "issue") (issues self)
  ++ html_list html_warnings_open (lit "warning") (warnings self)
  ++ html_list html_suggestions_open (lit "suggestion") (suggestions self)
  ++ (if py_truthy (scene_data self)
      then html_scene_open ++ json_dumps (scene_data self) ++ html_scene_close
      else [])
  ++ html_tail.

(** The [report] dictionary. *)
Definition report_of (self : ValidationResult) : json :=
  JDict [ (lit "valid", JBool (valid self));
          (lit "validation_time", JStr (validation_time self));
          (lit "issues", JList (map JStr (issues self)));
          (lit "warnings", JList (map JStr (warnings self)));
          (lit "suggestions", JList (map JStr (suggestions self)));
          (lit "scene_data", scene_data self) ].

(** [export_report] reads the result and writes one file; it hands back the
    result object and the file system as it leaves them.  Opening the file
    can fail, and so can the write that follows. *)
Definition export_to (w : World) (self : ValidationResult) (output_path content : pystr)
    (fs : FS) : (ValidationResult * FS) * outcome pystr :=
  match open_w_error w output_path with
  | Some e => ((self, fs), Raise e)
  | None =>
      match write_file w output_path content fs with
      | (fs', Ok _) => ((self, fs'), Ok output_path)
      | (fs', Raise e) => ((self, fs'), Raise e)
      end
  end.

Definition export_report (w : World) (self : ValidationResult) (output_path : pystr)
    (fs : FS) : (ValidationResult * FS) * outcome pystr :=
  if endswith (lit ".json") output_path then
    export_to w self output_path (json_dumps (report_of self)) fs
  else if endswith (lit ".html") output_path then
    export_to w self output_path (_generate_html_report self) fs
  else
    ((self, fs), Raise unsupported_format).

(** *** SceneValidator *)

Record SceneValidator := mkSceneValidator {
  config : json;
  gemini_available : bool;
  gemini_model : option gemini_model_t
}.

Definition default_config : json :=
  JDict
    [ (lit "validation_rules",
       JDict [ (lit "required_fields",
                JList [JStr (lit "id"); JStr (lit "name");
                       JStr (lit "duration"); JStr (lit "elements")]);
               (lit "allowed_element_types",
                JList [JStr (lit "character"); JStr (lit "prop");
                       JStr (lit "environment"); JStr (lit "effect")]);
               (lit "max_elements_per_scene", JInt 50);
               (lit "min_scene_duration", JFloat (FFin (1 # 1))) ]);
      (lit "continuity_tracking",
       JDict [ (lit "enabled", JBool true);
               (lit "track_characters", JBool true);
               (lit "track_props", JBool true);
               (lit "track_environments", JBool true) ]);
      (lit "gemini_api",
       JDict [ (lit "use_gemini", JBool true);
               (lit "model_name", JStr (lit "gemini-pro"));
               (* the double nearest to 0.2 *)
               (lit "temperature",
                JFloat (FFin (3602879701896397 # 18014398509481984))) ]);
      (lit "reporting",
       JDict [ (lit "detail_level", JStr (lit "high"));
               (lit "include_suggestions", JBool true);
               (lit "format", JStr (lit "html")) ]) ].

(** [config_path] is [None], or a path; an empty path is as good as none. *)
Definition _load_config (w : World) (config_path : option pystr) : outcome json :=
  match config_path with
  | None | Some [] => Ok default_config
  | Some path =>
      match read_json w path with
      | Ok config => Ok config
      | Raise e =>
          match exn_class_of e with
          | FileNotFoundError | JSONDecodeError => Ok default_config
          | _ => Raise e
          end
      end
  end.

(** [v.get(k, default)]: only [dict] has the method. *)
Definition py_get (v : json) (k : pystr) (default : json) : outcome json :=
  match v with
  | JDict d =>
      match dict_get k d with
      | Some x => Ok x
      | None => Ok default
      end
  | _ =>
      Raise (Exn AttributeError
               (lit "'" ++ type_name v ++ lit "' object has no attribute 'get'"))
  end.

Definition bind_outcome {A B} (o : outcome A) (k : A -> outcome B) : outcome B :=
  match o with
  | Ok a => k a
  | Raise e => Raise e
  end.

(** Gives [gemini_available] and, when it was set, [gemini_model]. *)
Definition _setup_gemini_api (w : World) (cfg : json)
    : outcome (bool * option gemini_model_t) :=
  bind_outcome (py_get cfg (lit "gemini_api") (JDict [])) (fun gemini_api =>
  bind_outcome (py_get gemini_api (lit "use_gemini") (JBool false)) (fun use_gemini =>
  if py_truthy use_gemini then
    match environ_GEMINI_API_KEY w with
    | None | Some [] => Ok (false, None)
    | Some api_key =>
        match
          bind_outcome (genai_configure w api_key) (fun _ =>
          bind_outcome (py_getitem cfg (lit "gemini_api")) (fun g =>
          bind_outcome (py_getitem g (lit "model_name")) (fun model_name =>
          genai_GenerativeModel w model_name)))
        with
        | Ok model => Ok (true, Some model)
        | Raise _ => Ok (false, None)
        end
    end
  else Ok (false, None))).

(** [SceneValidator(config_path)] *)
Definition SceneValidator_init (w : World) (config_path : option pystr)
    : outcome SceneValidator :=
  bind_outcome (_load_config w config_path) (fun cfg =>
  bind_outcome (_setup_gemini_api w cfg) (fun g =>
  Ok {| config := cfg; gemini_available := fst g; gemini_model := snd g |})).

(** [self.config["validation_rules"][name]] *)
Definition validation_rule (self : SceneValidator) (name : pystr) : outcome json :=
  bind_outcome (py_getitem (config self) (lit "validation_rules")) (fun rules =>
  py_getitem rules name).

Definition _load_scene_data (w : World) (scene_path : pystr) : M json :=
  try_catch (eval (read_json w scene_path))
    (fun e =>
       match exn_class_of e with
       | FileNotFoundError =>
           write (add_issue (lit "Scene file not found: " ++ scene_path)) ;;
           ret JNull
       | JSONDecodeError =>
           write (add_issue (lit "Invalid JSON in scene file: " ++ str_exn e)) ;;
           ret JNull
       | _ => eval (Raise e)
       end).

Definition missing_field_issue (field : json) : pystr :=
  lit "Missing required field: " ++ py_str field.

Definition _validate_required_fields (self : SceneValidator) (scene : json) : M unit :=
  required_fields <- eval (validation_rule self (lit "required_fields")) ;;
  fields <- eval (py_iter required_fields) ;;
  for_each fields (fun field =>
    present <- eval (py_contains scene field) ;;
    if negb present then write (add_issue (missing_field_issue field))
    else ret tt).

Definition duration_warning (duration min_duration : json) : pystr :=
  lit "Scene duration (" ++ py_str duration
  ++ lit "s) is less than minimum recommended ("
  ++ py_str min_duration ++ lit "s)".

(** The two statements of [_validate_scene_structure], in turn. *)
Definition check_duration (self : SceneValidator) (scene : json) : M unit :=
  min_duration <- eval (validation_rule self (lit "min_scene_duration")) ;;
  has_duration <- eval (py_contains scene (JStr (lit "duration"))) ;;
  if has_duration then
    duration <- eval (py_getitem scene (lit "duration")) ;;
    too_short <- eval (py_cmp OpLt duration min_duration) ;;
    if too_short then write (add_warning (duration_warning duration min_duration))
    else ret tt
  else ret tt.

Definition check_name (scene : json) : M unit :=
  has_name <- eval (py_contains scene (JStr (lit "name"))) ;;
  if has_name then
    name <- eval (py_getitem scene (lit "name")) ;;
    stripped <- eval (py_strip name) ;;
    match stripped with
    | [] => write (add_warning (lit "Scene has an empty name"))
    | _ => ret tt
    end
  else ret tt.

Definition _validate_scene_structure (self : SceneValidator) (scene : json) : M unit :=
  check_duration self scene ;;
  check_name scene.

Definition not_object_issue (i : nat) : pystr :=
  lit "Element at index " ++ str_of_nat i ++ lit " is not a valid object".

Definition missing_type_issue (i : nat) : pystr :=
  lit "Element at index " ++ str_of_nat i ++ lit " is missing a type".

Definition invalid_type_issue (i : nat) (ty : json) (allowed : pystr) : pystr :=
  lit "Element at index " ++ str_of_nat i ++ lit " has invalid type: "
  ++ py_str ty ++ lit ". Allowed types: " ++ allowed.

Definition missing_id_warning (i : nat) : pystr :=
  lit "Element at index " ++ str_of_nat i ++ lit " is missing an ID".

(** The body of the loop over [enumerate(elements)]; [continue] ends it. *)
Definition check_element (allowed_types : json) (ie : nat * json) : M unit :=
  let (i, element) := ie in
  match element with
  | JDict _ =>
      has_type <- eval (py_contains element (JStr (lit "type"))) ;;
      if negb has_type then write (add_issue (missing_type_issue i))
      else
        ty <- eval (py_getitem element (lit "type")) ;;
        allowed <- eval (py_contains allowed_types ty) ;;
        (if negb allowed then
           joined <- eval (py_join (lit ", ") allowed_types) ;;
           write (add_issue (invalid_type_issue i ty joined))
         else ret tt) ;;
        has_id <- eval (py_contains element (JStr (lit "id"))) ;;
        if negb has_id then write (add_warning (missing_id_warning i))
        else ret tt
  | _ => write (add_issue (not_object_issue i))
  end.

Definition _validate_elements (self : SceneValidator) (scene : json) : M unit :=
  has_elements <- eval (py_contains scene (JStr (lit "elements"))) ;;
  if negb has_elements then ret tt
  else
    elements <- eval (py_getitem scene (lit "elements")) ;;
    match elements with
    | JList els =>
        max_elements <- eval (validation_rule self (lit "max_elements_per_scene")) ;;
        let n := JInt (Z.of_nat (List.length els)) in
        too_many <- eval (py_cmp OpGt n max_elements) ;;
        (if too_many then
           write (add_warning
                    (lit "Scene has " ++ py_str n
                     ++ lit " elements, which exceeds the recommended maximum of "
                     ++ py_str max_elements))
         else ret tt) ;;
        allowed_types <- eval (validation_rule self (lit "allowed_element_types")) ;;
        for_each (enumerate els) (check_element allowed_types)
    | _ => write (add_issue (lit "Scene elements must be a list"))
    end.

(** *** The advisory pass *)

Definition _generate_gemini_prompt (scene : json) : pystr :=
  prompt_before ++ json_dumps scene ++ prompt_after.

Definition bullet : N := 8226%N.

Definition nonempty (s : pystr) : list pystr :=
  match s with [] => [] | _ => [s] end.

(** The suggestion, if any, that one line of the response gives. *)
Definition parse_line (raw : pystr) : list pystr :=
  let line := strip raw in
  if startswith [bullet] line || startswith (lit "-") line || startswith (lit "*") line
  then nonempty (strip (tl line))
  else if startswith (lit "1.") line || startswith (lit "2.") line
          || startswith (lit "3.") line
  then match split_once 46%N line with
       | _ :: part :: _ => nonempty (strip part)
       | _ => []
       end
  else [].

Definition _parse_gemini_response (response_text : pystr) : list pystr :=
  flat_map parse_line (split_on 10%N response_text).

Definition no_model : exn :=
  Exn AttributeError (lit "'SceneValidator' object has no attribute 'gemini_model'").

(** [self.gemini_model.generate_content(prompt).text] *)
Definition ask_gemini (self : SceneValidator) (prompt : pystr) : outcome pystr :=
  match gemini_model self with
  | Some model => model prompt
  | None => Raise no_model
  end.

Definition gemini_failure_warning (e : exn) : pystr :=
  lit "Could not perform Gemini-based validation: " ++ str_exn e.

Definition _perform_gemini_validation (self : SceneValidator) (scene : json) : M unit :=
  try_catch
    (response_text <- eval (ask_gemini self (_generate_gemini_prompt scene)) ;;
     for_each (_parse_gemini_response response_text)
       (fun suggestion => write (add_suggestion suggestion)))
    (fun e => write (add_warning (gemini_failure_warning e))).

(** *** SceneValidator.validate *)

(** The three rule checks, in the order [validate] calls them. *)
Definition rule_checks (self : SceneValidator) (scene : json) : M unit :=
  _validate_required_fields self scene ;;
  _validate_scene_structure self scene ;;
  _validate_elements self scene.

Definition advisory_pass (self : SceneValidator) (scene : json) : M unit :=
  if gemini_available self then _perform_gemini_validation self scene
  else ret tt.

(** What follows a load that gave a scene: snapshot, checks, advisory pass. *)
Definition after_load (self : SceneValidator) (scene : json) : M unit :=
  write (set_scene_data scene) ;;
  rule_checks self scene ;;
  advisory_pass self scene.

(** The [try] block of [validate]. *)
Definition validate_body (w : World) (self : SceneValidator) (scene_path : pystr) : M unit :=
  scene <- _load_scene_data w scene_path ;;
  if negb (py_truthy scene) then ret tt
  else after_load self scene.

Definition unexpected_error_issue (e : exn) : pystr :=
  lit "Unexpected error during validation: " ++ str_exn e.

(** The [try] statement of [validate]: the handler turns whatever the block
    raises into one issue. *)
Definition validate_try (w : World) (self : SceneValidator) (scene_path : pystr) : M unit :=
  try_catch (validate_body w self scene_path)
    (fun e => write (add_issue (unexpected_error_issue e))).

Definition validate (w : World) (self : SceneValidator) (scene_path : pystr)
    : ValidationResult :=
  fst (validate_try w self scene_path (new_ValidationResult (clock w))).

(** *** The command line

    [main], from the parsed arguments on: the [--format] choices are "json"
    and "html"; absent options are [None].  It prints to standard output
    (the characters printed are handed back) and may write one report
    file. *)

Inductive report_format := FormatJson | FormatHtml.

Definition format_name (f : report_format) : pystr :=
  match f with FormatJson => lit "json" | FormatHtml => lit "html" end.

Record Args := mkArgs {
  arg_scene_path : pystr;
  arg_config : option pystr;
  arg_output : option pystr;
  arg_format : report_format
}.

(** The path [main] hands to [export_report]. *)
Definition report_path (output : pystr) (f : report_format) : pystr :=
  if endswith (lit "." ++ format_name f) output then output
  else output ++ lit "." ++ format_name f.

Definition main (w : World) (args : Args) (fs : FS)
    : (pystr * FS) * outcome unit :=
  match SceneValidator_init w (arg_config args) with
  | Raise e => (([], fs), Raise e)
  | Ok validator =>
      let result := validate w validator (arg_scene_path args) in
      match py_print w (summary result) [] with
      | (printed, Raise e) => ((printed, fs), Raise e)
      | (printed, Ok _) =>
          match arg_output args with
          | None | Some [] => ((printed, fs), Ok tt)
          | Some output =>
              let output_path := report_path output (arg_format args) in
              match export_report w result output_path fs with
              | ((_, fs'), Raise e) => ((printed, fs'), Raise e)
              | ((_, fs'), Ok _) =>
                  match py_print w (lit "Validation report saved to " ++ output_path)
                          printed with
                  | (printed', o) => ((printed', fs'), o)
                  end
              end
          end
      end
  end.

(** ** Properties of ValidationResult *)

(** [valid == (len(issues) == 0)] *)
Definition invariant (r : ValidationResult) : Prop :=
  valid r = (List.length (issues r) =? 0)%nat.

(** The issues, warnings and suggestions a sequence of mutators carries. *)
Definition issues_of (ops : list result_op) : list pystr :=
  flat_map (fun o => match o with AddIssue s => [s] | _ => [] end) ops.

Definition warnings_of (ops : list result_op) : list pystr :=
  flat_map (fun o => match o with AddWarning s => [s] | _ => [] end) ops.

Definition suggestions_of (ops : list result_op) : list pystr :=
  flat_map (fun o => match o with AddSuggestion s => [s] | _ => [] end) ops.

(** A method that only appends findings, each of them satisfying [P]: what
    it appends and whether it raises do not depend on the result it is
    given. *)
Definition emits (P : result_op -> Prop) {A} (m : M A) : Prop :=
  exists ops o, Forall P ops /\ forall r, m r = (apply_ops ops r, o).

Definition is_finding (o : result_op) : Prop :=
  match o with AddSuggestion _ => False | _ => True end.

(** A method that appends issues and warnings only. *)
Definition framed {A} (m : M A) : Prop := emits is_finding m.

(** The names of [names] that are not keys of [d], in the order of [names]. *)
Definition missing_fields (d : list (pystr * json)) (names : list pystr) : list pystr :=
  filter (fun n => negb (dict_has n d)) names.

(** What the loop body does to the outcome for an element that is a mapping,
    when [allowed_element_types] is the list of strings [names]: without a
    type, one issue and nothing more; with a type, an issue if it is not
    allowed, and then a warning if there is no id. *)
Definition type_step (names : list pystr) (i : nat) (ty : json)
    (r : ValidationResult) : ValidationResult :=
  if existsb (fun x => py_eq x ty) (map JStr names) then r
  else add_issue (invalid_type_issue i ty (join (lit ", ") names)) r.

Definition id_step (i : nat) (d : list (pystr * json))
    (r : ValidationResult) : ValidationResult :=
  if dict_has (lit "id") d then r else add_warning (missing_id_warning i) r.

Definition element_effect (names : list pystr) (i : nat) (d : list (pystr * json))
    (r : ValidationResult) : ValidationResult :=
  match dict_get (lit "type") d with
  | None => add_issue (missing_type_issue i) r
  | Some ty => id_step i d (type_step names i ty r)
  end.

(** The issue [validate] records when reading or parsing the scene file
    raises [e]: the two handlers of [_load_scene_data], or else the handler
    of [validate]. *)
Definition load_failure_issue (scene_path : pystr) (e : exn) : pystr :=
  match exn_class_of e with
  | FileNotFoundError => lit "Scene file not found: " ++ scene_path
  | JSONDecodeError => lit "Invalid JSON in scene file: " ++ str_exn e
  | _ => unexpected_error_issue e
  end.

Definition is_missing_field_issue (o : result_op) : Prop :=
  exists field, o = AddIssue (missing_field_issue field).

(** The options of [validation_rules] that the checks read. *)
Definition recognized_options : list pystr :=
  [ lit "required_fields"; lit "allowed_element_types";
    lit "max_elements_per_scene"; lit "min_scene_duration" ].

(** ** Sample inputs

    For concrete runs, the library texts that no rule depends on are fixed
    to placeholders. *)

Definition sample_repr (v : json) : pystr :=
  match v with
  | JFloat (FFin q) =>
      if Qeq_bool q (1 # 2) then lit "0.5"
      else if Qeq_bool q (1 # 1) then lit "1.0"
      else lit "<float>"
  | _ => lit "<value>"
  end.

Definition sample_dumps (v : json) : pystr := lit "<json>".

Definition no_such_file (path : pystr) : exn :=
  Exn FileNotFoundError
    (lit "[Errno 2] No such file or directory: '" ++ path ++ lit "'").

(** A world without API key in which [files] are the readable JSON files. *)
Definition sample_world (files : list (pystr * json)) : World :=
  {| clock := lit "2024-05-01T12:00:00";
     read_json := fun path =>
       match dict_get path files with
       | Some v => Ok v
       | None => Raise (no_such_file path)
       end;
     environ_GEMINI_API_KEY := None;
     genai_configure := fun _ => Ok tt;
     genai_GenerativeModel := fun _ => Raise (Exn OtherException (lit "unreachable"));
     open_w_error := fun _ => None;
     write_error := fun _ _ => None;
     print_error := fun _ => None |}.

(** The validator built without configuration file and without API key. *)
Definition default_validator : SceneValidator :=
  {| config := default_config; gemini_available := false; gemini_model := None |}.

(** A validator whose advisory service cannot be reached. *)
Definition unreachable_service : exn :=
  Exn OtherException (lit "503 Service Unavailable").

Definition offline_validator : SceneValidator :=
  {| config := default_config;
     gemini_available := true;
     gemini_model := Some (fun _ => Raise unreachable_service) |}.

Definition intro_scene : json :=
  JDict [ (lit "id", JStr (lit "s1")); (lit "name", JStr (lit "Intro"));
          (lit "duration", JInt 5);
          (lit "elements",
           JList [JDict [ (lit "id", JStr (lit "c1"));
                          (lit "type", JStr (lit "character")) ]]) ].

Definition vehicle_scene : json :=
  JDict [ (lit "id", JStr (lit "s1")); (lit "name", JStr (lit "Chase"));
          (lit "duration", JInt 5);
          (lit "elements", JList [JDict [ (lit "type", JStr (lit "vehicle")) ]]) ].

Definition bad_name_scene : json :=
  JDict [ (lit "name", JInt 5); (lit "elements", JInt 7) ].

Definition typeless_scene : json :=
  JDict [ (lit "elements", JList [JDict []]) ].


Definition short_scene : json :=
  JDict [ (lit "id", JStr (lit "s1")); (lit "duration", JFloat (FFin (1 # 2))) ].


(** ** Vocabulary for the further properties *)

(** A method under which [valid == (len(issues) == 0)] and the creation time
    are kept. *)
Definition keeps_invariant {A} (m : M A) : Prop :=
  forall r,
    (invariant r -> invariant (fst (m r)))
    /\ validation_time (fst (m r)) = validation_time r.

(** What the advisory pass appends. *)
Definition advisory_ops (self : SceneValidator) (scene : json) : list result_op :=
  if gemini_available self then
    match ask_gemini self (_generate_gemini_prompt scene) with
    | Ok text => map AddSuggestion (_parse_gemini_response text)
    | Raise e => [AddWarning (gemini_failure_warning e)]
    end
  else [].

(** The same validator with the advisory service switched off. *)
Definition without_gemini (self : SceneValidator) : SceneValidator :=
  {| config := config self; gemini_available := false; gemini_model := None |}.

Definition is_warning (o : result_op) : Prop :=
  match o with AddWarning _ => True | _ => False end.

(** [a < b] for two numbers. *)
Definition num_lt (a b : json) : bool :=
  match num_of a, num_of b with
  | Some x, Some y => float_ltb x y
  | _, _ => false
  end.

(** A string that [strip()] empties. *)
Definition is_blank (s : pystr) : bool :=
  match strip s with [] => true | _ => false end.

(** What the structure check does to the outcome for a record [d] with a
    numeric duration and a string name, under the minimum [m]. *)
Definition duration_step (m : json) (d : list (pystr * json))
    (r : ValidationResult) : ValidationResult :=
  match dict_get (lit "duration") d with
  | Some v => if num_lt v m then add_warning (duration_warning v m) r else r
  | None => r
  end.

Definition name_step (d : list (pystr * json)) (r : ValidationResult)
    : ValidationResult :=
  match dict_get (lit "name") d with
  | Some (JStr s) =>
      if is_blank s then add_warning (lit "Scene has an empty name") r else r
  | _ => r
  end.

(** What the element check does to the outcome when [allowed_element_types]
    is the list of strings [types] and [max_elements_per_scene] is the number
    [max]. *)
Definition any_element_effect (types : list pystr) (r : ValidationResult)
    (ie : nat * json) : ValidationResult :=
  match snd ie with
  | JDict e => element_effect types (fst ie) e r
  | _ => add_issue (not_object_issue (fst ie)) r
  end.

Definition count_warning (n : nat) (max : json) : pystr :=
  lit "Scene has " ++ str_of_nat n
  ++ lit " elements, which exceeds the recommended maximum of " ++ py_str max.

Definition count_step (max : json) (els : list json) (r : ValidationResult)
    : ValidationResult :=
  if num_lt max (JInt (Z.of_nat (List.length els)))
  then add_warning (count_warning (List.length els) max) r
  else r.

Definition elements_effect (types : list pystr) (max : json)
    (d : list (pystr * json)) (r : ValidationResult) : ValidationResult :=
  match dict_get (lit "elements") d with
  | None => r
  | Some (JList els) =>
      fold_left (any_element_effect types) (enumerate els) (count_step max els r)
  | Some _ => add_issue (lit "Scene elements must be a list") r
  end.

(** An element that draws no issue: a mapping whose type is allowed. *)
Definition element_accepted (types : list pystr) (el : json) : bool :=
  match el with
  | JDict e =>
      match dict_get (lit "type") e with
      | Some ty => existsb (fun x => py_eq x ty) (map JStr types)
      | None => false
      end
  | _ => false
  end.

(** A record that draws no issue: every required field is present, the
    duration is a number and the name a string where present, and the
    elements, where present, are a list of accepted elements. *)
Definition record_accepted (names types : list pystr) (d : list (pystr * json)) : bool :=
  forallb (fun n => dict_has n d) names
  && match dict_get (lit "duration") d with
     | Some v => is_numeric v
     | None => true
     end
  && match dict_get (lit "name") d with
     | Some v => is_str v
     | None => true
     end
  && match dict_get (lit "elements") d with
     | None => true
     | Some (JList els) => forallb (element_accepted types) els
     | Some _ => false
     end.

(** An element that draws no finding at all: accepted, and with an id. *)
Definition element_clean (types : list pystr) (el : json) : bool :=
  match el with
  | JDict e => element_accepted types el && dict_has (lit "id") e
  | _ => false
  end.

(** A record that draws no finding at all under the rules [names], [types],
    [max] and [m]. *)
Definition record_clean (names types : list pystr) (max m : json)
    (d : list (pystr * json)) : bool :=
  forallb (fun n => dict_has n d) names
  && match dict_get (lit "duration") d with
     | Some v => is_numeric v && negb (num_lt v m)
     | None => true
     end
  && match dict_get (lit "name") d with
     | Some (JStr s) => negb (is_blank s)
     | Some _ => false
     | None => true
     end
  && match dict_get (lit "elements") d with
     | None => true
     | Some (JList els) =>
         negb (num_lt max (JInt (Z.of_nat (List.length els))))
         && forallb (element_clean types) els
     | Some _ => false
     end.

(** Further sample inputs: the built-in rules, records and arguments. *)

Definition default_names : list pystr :=
  [lit "id"; lit "name"; lit "duration"; lit "elements"].

Definition default_types : list pystr :=
  [lit "character"; lit "prop"; lit "environment"; lit "effect"].

Definition intro_record : list (pystr * json) :=
  [ (lit "id", JStr (lit "s1")); (lit "name", JStr (lit "Intro"));
    (lit "duration", JInt 5);
    (lit "elements",
     JList [JDict [ (lit "id", JStr (lit "c1"));
                    (lit "type", JStr (lit "character")) ]]) ].

Definition vehicle_record : list (pystr * json) :=
  [ (lit "id", JStr (lit "s1")); (lit "name", JStr (lit "Chase"));
    (lit "duration", JInt 5);
    (lit "elements", JList [JDict [ (lit "type", JStr (lit "vehicle")) ]]) ].

Definition short_record : list (pystr * json) :=
  [ (lit "id", JStr (lit "s1")); (lit "duration", JFloat (FFin (1 # 2))) ].

Definition ruleless_validator : SceneValidator :=
  {| config := JDict []; gemini_available := false; gemini_model := None |}.

Definition report_args : Args :=
  {| arg_scene_path := lit "scene.json"; arg_config := None;
     arg_output := Some (lit "out.json"); arg_format := FormatHtml |}.

Definition plain_args : Args :=
  {| arg_scene_path := lit "scene.json"; arg_config := None;
     arg_output := None; arg_format := FormatHtml |}.

Lemma apply_ops_app ops1 ops2 r :
  apply_ops (ops1 ++ ops2) r = apply_ops ops2 (apply_ops ops1 r).
Proof. unfold apply_ops. apply fold_left_app. Qed.

(** Induction on a sequence of mutators, the result being general. *)
Ltac ops_induction ops r :=
  let o := fresh "o" in
  let IH := fresh "IH" in
  induction ops as [|o ops IH]; intro r; cbn;
  [ | fold (apply_ops ops (apply_op r o)); rewrite IH ].

Lemma apply_ops_issues ops : forall r,
  issues (apply_ops ops r) = issues r ++ issues_of ops.
Proof.
  ops_induction ops r; [now rewrite app_nil_r|].
  destruct o; cbn; rewrite <- ?app_assoc; reflexivity.
Qed.

Lemma apply_ops_warnings ops : forall r,
  warnings (apply_ops ops r) = warnings r ++ warnings_of ops.
Proof.
  ops_induction ops r; [now rewrite app_nil_r|].
  destruct o; cbn; rewrite <- ?app_assoc; reflexivity.
Qed.

Lemma apply_ops_suggestions ops : forall r,
  suggestions (apply_ops ops r) = suggestions r ++ suggestions_of ops.
Proof.
  ops_induction ops r; [now rewrite app_nil_r|].
  destruct o; cbn; rewrite <- ?app_assoc; reflexivity.
Qed.

Lemma apply_ops_valid ops : forall r,
  valid (apply_ops ops r) = valid r && (List.length (issues_of ops) =? 0)%nat.
Proof.
  ops_induction ops r; [now rewrite andb_true_r|].
  destruct o; cbn; try reflexivity. now rewrite andb_false_r.
Qed.

Lemma apply_ops_scene_data ops : forall r,
  scene_data (apply_ops ops r) = scene_data r.
Proof. ops_induction ops r; [reflexivity | now destruct o]. Qed.

Lemma apply_ops_validation_time ops : forall r,
  validation_time (apply_ops ops r) = validation_time r.
Proof. ops_induction ops r; [reflexivity | now destruct o]. Qed.

Lemma length_app_eqb_0 {A} (l1 l2 : list A) :
  (List.length (l1 ++ l2) =? 0)%nat
  = (List.length l1 =? 0)%nat && (List.length l2 =? 0)%nat.
Proof. destruct l1, l2; reflexivity. Qed.

Lemma invariant_apply_ops ops r : invariant r -> invariant (apply_ops ops r).
Proof.
  unfold invariant. intros H.
  now rewrite apply_ops_valid, apply_ops_issues, length_app_eqb_0, H.
Qed.

(** C4.  From any outcome on which [valid == (len(issues) == 0)] holds, and
    so from a freshly created one, every sequence of [add_issue],
    [add_warning] and [add_suggestion] keeps that invariant; a fresh outcome
    is valid; [add_issue] always leaves it invalid; and once invalid it stays
    invalid under any further operations. *)
Theorem valid_flag_invariant (r0 : ValidationResult) (ops : list result_op) :
  invariant r0 ->
  let r := apply_ops ops r0 in
  invariant r
  /\ (forall now, valid (new_ValidationResult now) = true
                  /\ invariant (new_ValidationResult now))
  /\ (forall s, valid (add_issue s r) = false /\ invariant (add_issue s r))
  /\ (forall s, valid (add_warning s r) = valid r)
  /\ (forall s, valid (add_suggestion s r) = valid r)
  /\ (forall more, valid r = false -> valid (apply_ops more r) = false).
Proof.
  intros H r. assert (Hr : invariant r) by now apply invariant_apply_ops.
  repeat split; try reflexivity; try assumption.
  - apply (invariant_apply_ops [AddIssue s] r Hr).
  - intros more Hv. now rewrite apply_ops_valid, Hv.
Qed.

(** ** The rule checks only append findings *)

Lemma emits_ret P {A} (a : A) : emits P (ret a).
Proof. exists [], (Ok a). now split. Qed.

Lemma emits_eval P {A} (o : outcome A) : emits P (eval o).
Proof. exists [], o. now split. Qed.

Lemma emits_add_issue (P : result_op -> Prop) s :
  P (AddIssue s) -> emits P (write (add_issue s)).
Proof. intro H. exists [AddIssue s], (Ok tt). split; [now constructor | reflexivity]. Qed.

Lemma emits_add_warning (P : result_op -> Prop) s :
  P (AddWarning s) -> emits P (write (add_warning s)).
Proof. intro H. exists [AddWarning s], (Ok tt). split; [now constructor | reflexivity]. Qed.

Lemma emits_bind P {A B} (m : M A) (k : A -> M B) :
  emits P m -> (forall a, emits P (k a)) -> emits P (bind m k).
Proof.
  intros (ops & o & Hs & Hm) Hk. destruct o as [a|e].
  - destruct (Hk a) as (ops' & o' & Hs' & Hka).
    exists (ops ++ ops'), o'. split.
    + apply Forall_app. now split.
    + intro r. unfold bind. now rewrite Hm, Hka, apply_ops_app.
  - exists ops, (Raise e). split; [assumption|].
    intro r. unfold bind. now rewrite Hm.
Qed.

Lemma emits_for_each P {A} (xs : list A) (body : A -> M unit) :
  (forall x, emits P (body x)) -> emits P (for_each xs body).
Proof.
  intro Hb. induction xs as [|x xs IH]; cbn.
  - apply emits_ret.
  - apply emits_bind; auto.
Qed.

Lemma emits_if P {A} (b : bool) (m1 m2 : M A) :
  emits P m1 -> emits P m2 -> emits P (if b then m1 else m2).
Proof. now destruct b. Qed.

Lemma emits_weaken (P Q : result_op -> Prop) {A} (m : M A) :
  (forall o, P o -> Q o) -> emits P m -> emits Q m.
Proof.
  intros HPQ (ops & o & Hs & Hm). exists ops, o. split; [|assumption].
  eapply Forall_impl; eauto.
Qed.

Lemma no_suggestions_of ops : Forall is_finding ops -> suggestions_of ops = [].
Proof.
  unfold suggestions_of. induction 1 as [|o ops Ho _ IH]; [reflexivity|].
  destruct o; cbn in *; auto. contradiction.
Qed.

Create HintDb emits.
#[local] Hint Resolve emits_ret emits_eval emits_if : emits.

Ltac emits_steps :=
  repeat first
    [ apply emits_bind; [| intro]
    | apply emits_for_each; intro
    | apply emits_if
    | apply emits_add_issue
    | apply emits_add_warning
    | solve [auto with emits] ].

Lemma framed_required_fields self scene :
  framed (_validate_required_fields self scene).
Proof. unfold framed, _validate_required_fields. emits_steps; exact I. Qed.

Lemma framed_check_duration self scene : framed (check_duration self scene).
Proof. unfold framed, check_duration. emits_steps; exact I. Qed.

Lemma framed_check_name scene : framed (check_name scene).
Proof.
  unfold framed, check_name. emits_steps.
  match goal with |- emits _ (match ?s with _ => _ end) => destruct s end;
    emits_steps; exact I.
Qed.

Lemma framed_scene_structure self scene :
  framed (_validate_scene_structure self scene).
Proof.
  unfold _validate_scene_structure. apply emits_bind.
  - apply framed_check_duration.
  - intro. apply framed_check_name.
Qed.

Lemma framed_check_element allowed ie : framed (check_element allowed ie).
Proof.
  destruct ie as [i element]. unfold framed, check_element.
  destruct element; emits_steps; exact I.
Qed.

Lemma framed_elements self scene : framed (_validate_elements self scene).
Proof.
  unfold framed, _validate_elements. emits_steps.
  match goal with |- emits _ (match ?e with _ => _ end) => destruct e end;
    emits_steps; try exact I.
  apply framed_check_element.
Qed.

Lemma framed_rule_checks self scene : framed (rule_checks self scene).
Proof.
  unfold rule_checks.
  apply emits_bind; [apply framed_required_fields | intro].
  apply emits_bind; [apply framed_scene_structure | intro].
  apply framed_elements.
Qed.

(** C8.  The rule engine is a function of the scene record and the rule
    configuration alone: the findings it appends and whether it raises are
    the same whatever outcome it is given, it appends no suggestion and
    leaves the snapshot and the creation time alone; so two runs, each
    started from an empty outcome (created at whatever times), end with the
    same issues and the same warnings in the same order. *)
Theorem rule_engine_deterministic (self : SceneValidator) (scene : json) :
  exists ops o,
    (forall r, rule_checks self scene r = (apply_ops ops r, o))
    /\ suggestions_of ops = []
    /\ (forall r,
          let r' := fst (rule_checks self scene r) in
          issues r' = issues r ++ issues_of ops
          /\ warnings r' = warnings r ++ warnings_of ops
          /\ suggestions r' = suggestions r
          /\ scene_data r' = scene_data r
          /\ validation_time r' = validation_time r)
    /\ (forall now1 now2,
          let run1 := rule_checks self scene (new_ValidationResult now1) in
          let run2 := rule_checks self scene (new_ValidationResult now2) in
          issues (fst run1) = issues (fst run2)
          /\ warnings (fst run1) = warnings (fst run2)
          /\ suggestions (fst run1) = suggestions (fst run2)
          /\ valid (fst run1) = valid (fst run2)
          /\ snd run1 = snd run2).
Proof.
  destruct (framed_rule_checks self scene) as (ops & o & Hf & H).
  pose proof (no_suggestions_of ops Hf) as Hs.
  exists ops, o. split; [assumption|]. split; [assumption|]. split.
  - intro r. cbn. rewrite H. cbn.
    rewrite apply_ops_issues, apply_ops_warnings, apply_ops_suggestions,
      apply_ops_scene_data, apply_ops_validation_time, Hs, app_nil_r.
    repeat split.
  - intros now1 now2. cbn. rewrite !H. cbn.
    rewrite !apply_ops_issues, !apply_ops_warnings, !apply_ops_suggestions,
      !apply_ops_valid.
    repeat split.
Qed.

(** ** The required-fields check *)

Lemma issues_of_add_issues (msgs : list pystr) :
  issues_of (map AddIssue msgs) = msgs.
Proof.
  unfold issues_of. induction msgs as [|m msgs IH]; cbn; [reflexivity|].
  now f_equal.
Qed.

Lemma warnings_of_add_issues (msgs : list pystr) :
  warnings_of (map AddIssue msgs) = [].
Proof. unfold warnings_of. induction msgs as [|m msgs IH]; cbn; auto. Qed.

Lemma suggestions_of_add_issues (msgs : list pystr) :
  suggestions_of (map AddIssue msgs) = [].
Proof. unfold suggestions_of. induction msgs as [|m msgs IH]; cbn; auto. Qed.

Lemma required_fields_loop d names : forall r,
  for_each (map JStr names)
    (fun field =>
       present <- eval (py_contains (JDict d) field) ;;
       if negb present then write (add_issue (missing_field_issue field))
       else ret tt) r
  = (apply_ops
       (map (fun n => AddIssue (lit "Missing required field: " ++ n))
          (missing_fields d names)) r,
     Ok tt).
Proof.
  induction names as [|n names IH]; intro r; [reflexivity|].
  cbn [map for_each]. unfold bind at 1. unfold bind at 1. cbn [eval py_contains].
  unfold missing_fields. cbn [filter]. fold (missing_fields d names).
  destruct (dict_has n d); cbn [negb]; cbv beta iota.
  - unfold ret at 1. apply IH.
  - unfold write at 1. rewrite IH. reflexivity.
Qed.

(** C5.  With a rule configuration whose [required_fields] is a list of
    names, and a scene record that is a mapping, the required-fields check
    returns normally, appends the issue "Missing required field: <name>" once
    for each entry of [required_fields] that is not a key of the record, in
    the configured order, changes nothing else, and leaves [valid] false
    exactly when a required field was missing or an issue already existed. *)
Theorem required_fields_check (self : SceneValidator) (d : list (pystr * json))
    (names : list pystr) (r : ValidationResult) :
  validation_rule self (lit "required_fields") = Ok (JList (map JStr names)) ->
  invariant r ->
  let run := _validate_required_fields self (JDict d) r in
  let missing := missing_fields d names in
  snd run = Ok tt
  /\ issues (fst run)
     = issues r ++ map (fun n => lit "Missing required field: " ++ n) missing
  /\ warnings (fst run) = warnings r
  /\ suggestions (fst run) = suggestions r
  /\ scene_data (fst run) = scene_data r
  /\ validation_time (fst run) = validation_time r
  /\ (valid (fst run) = false <-> missing <> [] \/ issues r <> [])
  /\ invariant (fst run).
Proof.
  intros Hcfg Hinv run missing.
  assert (E : run
              = (apply_ops
                   (map (fun n => AddIssue (lit "Missing required field: " ++ n))
                      missing) r, Ok tt)).
  { unfold run, _validate_required_fields, bind at 1. unfold eval at 1.
    rewrite Hcfg. unfold bind at 1. cbn [eval py_iter].
    apply required_fields_loop. }
  rewrite E. cbn [fst snd].
  rewrite <- (map_map (fun n => lit "Missing required field: " ++ n) AddIssue).
  rewrite apply_ops_issues, apply_ops_warnings, apply_ops_suggestions,
    apply_ops_scene_data, apply_ops_validation_time, apply_ops_valid,
    issues_of_add_issues, warnings_of_add_issues, suggestions_of_add_issues,
    !app_nil_r.
  repeat split; try reflexivity.
  - rewrite Hinv, length_map. intro H.
    destruct missing; [right | left; discriminate].
    destruct (issues r); [discriminate | discriminate].
  - rewrite Hinv, length_map.
    intros [H|H]; [destruct missing | destruct (issues r)];
      try congruence; cbn; now rewrite ?andb_false_r.
  - apply invariant_apply_ops. assumption.
Qed.

(** ** The element check *)

Lemma enumerate_from_app {A} (pre post : list A) : forall i,
  enumerate_from i (pre ++ post)
  = enumerate_from i pre ++ enumerate_from (i + List.length pre) post.
Proof.
  induction pre as [|x pre IH]; intro i; cbn.
  - now rewrite Nat.add_0_r.
  - rewrite IH. now rewrite Nat.add_succ_r.
Qed.

Lemma for_each_app {A} (xs ys : list A) (body : A -> M unit) : forall r,
  for_each (xs ++ ys) body r = (for_each xs body ;; for_each ys body) r.
Proof.
  induction xs as [|x xs IH]; intro r; cbn.
  - reflexivity.
  - unfold bind. destruct (body x r) as [r' [[]|e]]; [|reflexivity].
    rewrite IH. reflexivity.
Qed.

Lemma join_items_strs names : forall i,
  join_items i (map JStr names) = Ok names.
Proof.
  induction names as [|n names IH]; intro i; cbn; [reflexivity|].
  now rewrite IH.
Qed.

Lemma py_join_strs sep names :
  py_join sep (JList (map JStr names)) = Ok (join sep names).
Proof. unfold py_join. cbn. now rewrite join_items_strs. Qed.

Lemma py_same_str s v : py_same (JStr s) v = py_eq (JStr s) v.
Proof. destruct v; reflexivity. Qed.

Lemma existsb_same_strs names v :
  existsb (fun x => py_same x v) (map JStr names)
  = existsb (fun x => py_eq x v) (map JStr names).
Proof.
  induction names as [|n names IH]; [reflexivity|].
  cbn [map existsb]. now rewrite IH, py_same_str.
Qed.

Lemma check_element_mapping names i d r :
  check_element (JList (map JStr names)) (i, JDict d) r
  = (element_effect names i d r, Ok tt).
Proof.
  unfold check_element, element_effect, bind at 1.
  cbn [eval py_contains]. unfold dict_has at 1.
  destruct (dict_get (lit "type") d) as [ty|] eqn:Ety; cbn [negb]; cbv iota.
  2: reflexivity.
  unfold bind at 1. cbn [eval py_getitem]. rewrite Ety.
  unfold bind at 1. cbn [eval py_contains]. rewrite existsb_same_strs.
  unfold type_step, id_step.
  destruct (existsb (fun x => py_eq x ty) (map JStr names));
    cbn [negb]; cbv iota.
  - unfold bind at 1, ret at 1. unfold bind at 1. cbn [eval].
    destruct (dict_has (lit "id") d); reflexivity.
  - unfold bind at 1, bind at 1. cbn [eval]. rewrite py_join_strs.
    unfold write at 1. unfold bind at 1. cbn [eval].
    destruct (dict_has (lit "id") d); reflexivity.
Qed.

(** C2 (as the code has it).  With [allowed_element_types] a list of
    strings, an element at index [i] that is a mapping is checked, once the
    earlier elements were, as follows: if it has no 'type', the issue
    "Element at index <i> is missing a type" is appended and the rest of the
    body is skipped for this element, the missing-id warning included; if it
    has a 'type', an invalid-type issue is appended when the type is not
    allowed, and then, allowed or not, the warning "Element at index <i> is
    missing an ID" is appended when 'id' is absent.  The loop then goes on
    with the next element. *)
Theorem element_check_at_index (names : list pystr) (pre post : list json)
    (d : list (pystr * json)) (r : ValidationResult) :
  let allowed := JList (map JStr names) in
  let i := List.length pre in
  check_element allowed (i, JDict d) r
  = (match dict_get (lit "type") d with
     | None => add_issue (missing_type_issue i) r
     | Some ty =>
         let r1 :=
           if existsb (fun x => py_eq x ty) (map JStr names) then r
           else add_issue (invalid_type_issue i ty (join (lit ", ") names)) r in
         if dict_has (lit "id") d then r1
         else add_warning (missing_id_warning i) r1
     end, Ok tt)
  /\ for_each (enumerate (pre ++ JDict d :: post)) (check_element allowed) r
     = (for_each (enumerate pre) (check_element allowed) ;;
        write (element_effect names i d) ;;
        for_each (enumerate_from (S i) post) (check_element allowed)) r.
Proof.
  intros allowed i. split.
  - unfold allowed. rewrite check_element_mapping. reflexivity.
  - unfold enumerate. rewrite enumerate_from_app, for_each_app.
    cbn [enumerate_from for_each Nat.add]. fold i. unfold bind.
    destruct (for_each (enumerate_from 0 pre) (check_element allowed) r)
      as [r' [[]|e]]; [|reflexivity].
    unfold allowed at 1. rewrite check_element_mapping. reflexivity.
Qed.

(** ** The advisory pass *)

Lemma for_each_write {A} (f : A -> ValidationResult -> ValidationResult)
    (xs : list A) : forall r,
  for_each xs (fun x => write (f x)) r = (fold_left (fun r x => f x r) xs r, Ok tt).
Proof.
  induction xs as [|x xs IH]; intro r; cbn; [reflexivity|].
  unfold bind, write at 1. apply IH.
Qed.

Lemma gemini_validation_success self scene text r :
  ask_gemini self (_generate_gemini_prompt scene) = Ok text ->
  _perform_gemini_validation self scene r
  = (fold_left (fun r s => add_suggestion s r) (_parse_gemini_response text) r,
     Ok tt).
Proof.
  intro H. unfold _perform_gemini_validation, try_catch, bind, eval.
  rewrite H, for_each_write. reflexivity.
Qed.

Lemma gemini_validation_failure self scene e r :
  ask_gemini self (_generate_gemini_prompt scene) = Raise e ->
  _perform_gemini_validation self scene r
  = (add_warning (gemini_failure_warning e) r, Ok tt).
Proof.
  intro H. unfold _perform_gemini_validation, try_catch, bind, eval.
  rewrite H. reflexivity.
Qed.

Lemma gemini_validation_never_raises self scene r :
  snd (_perform_gemini_validation self scene r) = Ok tt.
Proof.
  destruct (ask_gemini self (_generate_gemini_prompt scene)) as [text|e] eqn:E.
  - now rewrite (gemini_validation_success _ _ _ _ E).
  - now rewrite (gemini_validation_failure _ _ _ _ E).
Qed.

Lemma advisory_pass_never_raises self scene r :
  snd (advisory_pass self scene r) = Ok tt.
Proof.
  unfold advisory_pass. destruct (gemini_available self); [|reflexivity].
  apply gemini_validation_never_raises.
Qed.

(** C7.  When the advisory step fails, that is when asking the service for
    its text raises (unreachable service, failing call, response without
    usable text), the step itself catches the exception and returns
    normally: exactly one warning, describing the failure, is appended; no
    issue and no suggestion is appended; [valid] is what it was before the
    step. *)
Theorem gemini_failure_is_one_warning (self : SceneValidator) (scene : json)
    (r : ValidationResult) (e : exn) :
  ask_gemini self (_generate_gemini_prompt scene) = Raise e ->
  let run := _perform_gemini_validation self scene r in
  snd run = Ok tt
  /\ warnings (fst run)
     = warnings r ++ [lit "Could not perform Gemini-based validation: " ++ str_exn e]
  /\ issues (fst run) = issues r
  /\ valid (fst run) = valid r
  /\ suggestions (fst run) = suggestions r
  /\ scene_data (fst run) = scene_data r
  /\ advisory_pass self scene r
     = if gemini_available self then (fst run, Ok tt) else (r, Ok tt).
Proof.
  intros H run. unfold run, advisory_pass.
  rewrite (gemini_validation_failure _ _ _ _ H). cbn.
  repeat split. destruct (gemini_available self); [|reflexivity].
  apply (gemini_validation_failure _ _ _ _ H).
Qed.

(** ** The top-level handler of [validate] *)

Lemma validate_try_never_raises w self scene_path r :
  snd (validate_try w self scene_path r) = Ok tt.
Proof.
  unfold validate_try, try_catch.
  destruct (validate_body w self scene_path r) as [r' [[]|e]]; reflexivity.
Qed.

Lemma load_ok w scene_path scene r :
  read_json w scene_path = Ok scene ->
  _load_scene_data w scene_path r = (r, Ok scene).
Proof. intro H. unfold _load_scene_data, try_catch, eval. now rewrite H. Qed.

Lemma validate_body_loaded w self scene_path scene r :
  read_json w scene_path = Ok scene ->
  py_truthy scene = true ->
  validate_body w self scene_path r = after_load self scene r.
Proof.
  intros H Ht. unfold validate_body, bind.
  rewrite (load_ok _ _ _ _ H), Ht. reflexivity.
Qed.

Lemma rule_checks_keep_snapshot self scene r :
  scene_data (fst (rule_checks self scene r)) = scene_data r
  /\ validation_time (fst (rule_checks self scene r)) = validation_time r.
Proof.
  destruct (framed_rule_checks self scene) as (ops & o & _ & H).
  rewrite H. cbn. now rewrite apply_ops_scene_data, apply_ops_validation_time.
Qed.

Lemma after_load_raise self scene r r' e :
  after_load self scene r = (r', Raise e) ->
  rule_checks self scene (set_scene_data scene r) = (r', Raise e).
Proof.
  unfold after_load, bind, write.
  destruct (rule_checks self scene (set_scene_data scene r)) as [r1 [[]|e1]];
    [|easy].
  pose proof (advisory_pass_never_raises self scene r1) as Ha.
  destruct (advisory_pass self scene r1) as [r2 o2]. cbn in Ha. subst o2.
  discriminate.
Qed.

(** C6.  [validate] never raises.  When the scene was loaded and a step
    after the load raises an exception to [validate] (only a rule check can:
    the snapshot cannot raise and the advisory pass catches its own
    failures), the handler appends to the outcome, as that step left it, the
    single issue "Unexpected error during validation: <message>", which
    makes the outcome invalid, and [validate] returns that outcome. *)
Theorem unexpected_error_is_caught (w : World) (self : SceneValidator)
    (scene_path : pystr) (scene : json) (r' : ValidationResult) (e : exn) :
  read_json w scene_path = Ok scene ->
  py_truthy scene = true ->
  after_load self scene (new_ValidationResult (clock w)) = (r', Raise e) ->
  let result := validate w self scene_path in
  validate_try w self scene_path (new_ValidationResult (clock w)) = (result, Ok tt)
  /\ result = add_issue (unexpected_error_issue e) r'
  /\ valid result = false
  /\ issues result
     = issues r' ++ [lit "Unexpected error during validation: " ++ str_exn e]
  /\ warnings result = warnings r'
  /\ suggestions result = suggestions r'
  /\ scene_data result = scene
  /\ rule_checks self scene (set_scene_data scene (new_ValidationResult (clock w)))
     = (r', Raise e)
  /\ (forall p r, snd (validate_try w self p r) = Ok tt)
  /\ (forall r, snd (advisory_pass self scene r) = Ok tt).
Proof.
  intros Hread Htruthy Hraise result.
  assert (E : validate_try w self scene_path (new_ValidationResult (clock w))
              = (add_issue (unexpected_error_issue e) r', Ok tt)).
  { unfold validate_try, try_catch.
    rewrite (validate_body_loaded _ _ _ _ _ Hread Htruthy), Hraise. reflexivity. }
  assert (R : result = add_issue (unexpected_error_issue e) r').
  { unfold result, validate. now rewrite E. }
  pose proof (after_load_raise _ _ _ _ _ Hraise) as Hrc.
  pose proof (rule_checks_keep_snapshot self scene
                (set_scene_data scene (new_ValidationResult (clock w)))) as [Hs _].
  rewrite Hrc in Hs. cbn in Hs.
  rewrite R. repeat split; try assumption.
  - intros p r. apply validate_try_never_raises.
  - intro r. apply advisory_pass_never_raises.
Qed.

(** ** [validate], from the load on *)

Lemma framed_keeps_snapshot {A} (m : M A) r :
  framed m -> scene_data (fst (m r)) = scene_data r.
Proof.
  intros (ops & o & _ & H). rewrite H. cbn. apply apply_ops_scene_data.
Qed.

Lemma add_suggestions_keep_snapshot ss : forall r,
  scene_data (fold_left (fun r s => add_suggestion s r) ss r) = scene_data r.
Proof. induction ss as [|s ss IH]; intro r; cbn; [reflexivity|]. now rewrite IH. Qed.

Lemma advisory_pass_keeps_snapshot self scene r :
  scene_data (fst (advisory_pass self scene r)) = scene_data r.
Proof.
  unfold advisory_pass. destruct (gemini_available self); [|reflexivity].
  destruct (ask_gemini self (_generate_gemini_prompt scene)) as [text|e] eqn:E.
  - rewrite (gemini_validation_success _ _ _ _ E). cbn.
    apply add_suggestions_keep_snapshot.
  - now rewrite (gemini_validation_failure _ _ _ _ E).
Qed.

Lemma validate_load_failed w self scene_path e :
  read_json w scene_path = Raise e ->
  validate w self scene_path
  = add_issue (load_failure_issue scene_path e) (new_ValidationResult (clock w)).
Proof.
  intro H.
  unfold validate, validate_try, validate_body, _load_scene_data, try_catch,
    bind, eval, load_failure_issue.
  rewrite H. destruct (exn_class_of e); reflexivity.
Qed.

Lemma truthy_not_none scene : py_truthy scene = true -> scene <> JNull.
Proof. intros H ->. discriminate. Qed.

(** The outcome of [validate] on a loaded, non-empty scene: each check is run
    on the outcome the previous one left, unless one of them raised. *)
Lemma validate_loaded w self scene_path scene :
  read_json w scene_path = Ok scene ->
  py_truthy scene = true ->
  let result := validate w self scene_path in
  let r0 := set_scene_data scene (new_ValidationResult (clock w)) in
  let c1 := _validate_required_fields self scene r0 in
  scene_data result = scene
  /\ match snd c1 with
     | Raise e => result = add_issue (unexpected_error_issue e) (fst c1)
     | Ok _ =>
         let c2 := _validate_scene_structure self scene (fst c1) in
         match snd c2 with
         | Raise e => result = add_issue (unexpected_error_issue e) (fst c2)
         | Ok _ =>
             let c3 := _validate_elements self scene (fst c2) in
             match snd c3 with
             | Raise e => result = add_issue (unexpected_error_issue e) (fst c3)
             | Ok _ => result = fst (advisory_pass self scene (fst c3))
             end
         end
     end.
Proof.
  intros Hread Ht result r0 c1.
  assert (E : result = fst (try_catch (after_load self scene)
                              (fun e => write (add_issue (unexpected_error_issue e)))
                              (new_ValidationResult (clock w)))).
  { unfold result, validate, validate_try, try_catch.
    now rewrite (validate_body_loaded _ _ _ _ _ Hread Ht). }
  pose proof (framed_keeps_snapshot _ r0 (framed_required_fields self scene)) as K1.
  fold c1 in K1. change (scene_data r0) with scene in K1.
  unfold try_catch, after_load, rule_checks, bind, write in E. fold r0 in E.
  fold c1 in E. clearbody result. clearbody r0.
  destruct c1 as [r1 [[]|e1]]; cbn [fst snd] in *.
  2: { subst result. now split. }
  pose proof (framed_keeps_snapshot _ r1 (framed_scene_structure self scene)) as K2.
  destruct (_validate_scene_structure self scene r1) as [r2 [[]|e2]];
    cbn [fst snd] in *.
  2: { subst result. split; [cbn; congruence | reflexivity]. }
  pose proof (framed_keeps_snapshot _ r2 (framed_elements self scene)) as K3.
  destruct (_validate_elements self scene r2) as [r3 [[]|e3]];
    cbn [fst snd] in *.
  2: { subst result. split; [cbn; congruence | reflexivity]. }
  pose proof (advisory_pass_never_raises self scene r3) as Ha.
  pose proof (advisory_pass_keeps_snapshot self scene r3) as K4.
  destruct (advisory_pass self scene r3) as [r4 o4]. cbn [fst snd] in *.
  subst o4. subst result. split; [cbn; congruence | reflexivity].
Qed.

(** C1 (as the code has it).  The outcome of [validate] holds exactly one
    issue, is invalid and has no snapshot if and only if reading or parsing
    the scene file failed, and the issue then describes that failure.  When
    the file parsed to a non-empty value, that value is snapshotted and the
    required-fields, structure and element checks are run against it in this
    order, each on the outcome the previous one left and only if no earlier
    one raised; a check that raises ends the run with the unexpected-error
    issue. *)
Theorem validate_after_load (w : World) (self : SceneValidator) (scene_path : pystr) :
  let result := validate w self scene_path in
  let fresh := new_ValidationResult (clock w) in
  ((exists m, issues result = [m] /\ valid result = false
              /\ scene_data result = JNull)
   <-> raises (read_json w scene_path) = true)
  /\ match read_json w scene_path with
     | Raise e => result = add_issue (load_failure_issue scene_path e) fresh
     | Ok scene =>
         if py_truthy scene then
           scene_data result = scene
           /\ let c1 := _validate_required_fields self scene
                          (set_scene_data scene fresh) in
              match snd c1 with
              | Raise e => result = add_issue (unexpected_error_issue e) (fst c1)
              | Ok _ =>
                  let c2 := _validate_scene_structure self scene (fst c1) in
                  match snd c2 with
                  | Raise e => result = add_issue (unexpected_error_issue e) (fst c2)
                  | Ok _ =>
                      let c3 := _validate_elements self scene (fst c2) in
                      match snd c3 with
                      | Raise e =>
                          result = add_issue (unexpected_error_issue e) (fst c3)
                      | Ok _ => result = fst (advisory_pass self scene (fst c3))
                      end
                  end
              end
         else True
     end.
Proof.
  intros result fresh.
  destruct (read_json w scene_path) as [scene|e] eqn:Hread.
  - destruct (py_truthy scene) eqn:Ht.
    + pose proof (validate_loaded w self scene_path scene Hread Ht) as [Hs Hc].
      split; [|split; assumption].
      split; [|discriminate].
      intros (m & _ & _ & Hnone). fold result in Hs. rewrite Hs in Hnone.
      now apply truthy_not_none in Ht.
    + split; [|exact I]. split; [|discriminate].
      intros (m & Hi & _). exfalso. revert Hi.
      unfold result, validate, validate_try, validate_body, try_catch, bind.
      rewrite (load_ok _ _ _ _ Hread), Ht. discriminate.
  - unfold result. rewrite (validate_load_failed _ _ _ _ Hread).
    split; [|reflexivity]. split; [reflexivity|].
    intros _. exists (load_failure_issue scene_path e). now cbn.
Qed.

(** ** A scene whose name is not a string *)

Lemma required_fields_emit self scene :
  emits is_missing_field_issue (_validate_required_fields self scene).
Proof.
  unfold _validate_required_fields. emits_steps. now eexists.
Qed.

Lemma missing_field_ops ops :
  Forall is_missing_field_issue ops ->
  exists fields,
    issues_of ops = map missing_field_issue fields
    /\ warnings_of ops = [] /\ suggestions_of ops = [].
Proof.
  induction 1 as [|o ops [f ->] _ (fields & Hi & Hw & Hs)].
  - now exists [].
  - exists (f :: fields). unfold issues_of, warnings_of, suggestions_of in *.
    cbn. now rewrite Hi, Hw, Hs.
Qed.

Lemma check_name_non_string d name r :
  dict_get (lit "name") d = Some name ->
  is_str name = false ->
  check_name (JDict d) r = (r, Raise (no_strip name)).
Proof.
  intros Hn Hs. unfold check_name, bind, eval. cbn [py_contains].
  unfold dict_has. rewrite Hn. cbn [py_getitem]. rewrite Hn.
  destruct name; try discriminate; reflexivity.
Qed.

Lemma check_duration_cases self scene r :
  (exists o, check_duration self scene r = (r, o))
  \/ (exists duration min_duration,
        check_duration self scene r
        = (add_warning (duration_warning duration min_duration) r, Ok tt)).
Proof.
  unfold check_duration, bind, eval, write, ret.
  destruct (validation_rule self (lit "min_scene_duration")); eauto.
  destruct (py_contains scene (JStr (lit "duration"))) as [[]|]; eauto.
  destruct (py_getitem scene (lit "duration")); eauto.
  destruct (py_cmp OpLt a0 a) as [[]|]; eauto.
Qed.

Lemma structure_raises_non_string self d name r :
  dict_get (lit "name") d = Some name ->
  is_str name = false ->
  exists e,
    snd (_validate_scene_structure self (JDict d) r) = Raise e
    /\ ((exists o, check_duration self (JDict d) r = (r, o))
        /\ fst (_validate_scene_structure self (JDict d) r) = r
        \/ exists duration min_duration,
             fst (_validate_scene_structure self (JDict d) r)
             = add_warning (duration_warning duration min_duration) r).
Proof.
  intros Hn Hs. unfold _validate_scene_structure, bind.
  destruct (check_duration_cases self (JDict d) r) as [[o E]|(a & b & E)];
    rewrite E.
  - destruct o as [[]|e].
    + rewrite (check_name_non_string _ _ _ Hn Hs). eexists. split; [reflexivity|].
      left. split; [now eexists | reflexivity].
    + exists e. split; [reflexivity|]. left. split; [now eexists | reflexivity].
  - rewrite (check_name_non_string _ _ _ Hn Hs). eexists. split; [reflexivity|].
    right. now exists a, b.
Qed.

Lemma py_lt_numeric v m :
  is_numeric m = true -> raises (py_cmp OpLt v m) = negb (is_numeric v).
Proof. destruct v, m; try discriminate; reflexivity. Qed.

Lemma check_name_raises d r :
  raises (snd (check_name (JDict d) r))
  = negb match dict_get (lit "name") d with
         | Some v => is_str v
         | None => true
         end
  /\ (raises (snd (check_name (JDict d) r)) = false ->
      snd (check_name (JDict d) r) = Ok tt).
Proof.
  unfold check_name, bind, eval. cbn [py_contains]. unfold dict_has.
  destruct (dict_get (lit "name") d) as [v|] eqn:Hn; [|now split].
  cbn [py_getitem]. rewrite Hn.
  destruct v; try (split; [reflexivity | discriminate]).
  cbn. destruct (strip s); now split.
Qed.

Lemma structure_raises self d r m :
  validation_rule self (lit "min_scene_duration") = Ok m ->
  is_numeric m = true ->
  raises (snd (_validate_scene_structure self (JDict d) r))
  = negb (match dict_get (lit "duration") d with
          | Some v => is_numeric v
          | None => true
          end
          && match dict_get (lit "name") d with
             | Some v => is_str v
             | None => true
             end).
Proof.
  intros Hm Hnum. unfold _validate_scene_structure, bind at 1.
  assert (D : exists r1 o1,
             check_duration self (JDict d) r = (r1, o1)
             /\ raises o1 = negb match dict_get (lit "duration") d with
                                 | Some v => is_numeric v
                                 | None => true
                                 end
             /\ (raises o1 = false -> o1 = Ok tt)).
  { unfold check_duration, bind, eval. rewrite Hm. cbn [py_contains].
    unfold dict_has. destruct (dict_get (lit "duration") d) as [v|] eqn:Hd.
    2: { do 2 eexists. split; [reflexivity|]. now split. }
    cbn [py_getitem]. rewrite Hd.
    pose proof (py_lt_numeric v m Hnum) as Hc.
    destruct (py_cmp OpLt v m) as [[]|e]; cbn in Hc;
      do 2 eexists; (split; [reflexivity|]); cbn; split; auto; discriminate. }
  destruct D as (r1 & o1 & E & Hr & Hok). rewrite E.
  destruct (match dict_get (lit "duration") d with
            | Some v => is_numeric v
            | None => true
            end).
  - rewrite (Hok Hr). cbn [andb]. apply check_name_raises.
  - destruct o1; [discriminate|]. reflexivity.
Qed.

Lemma nonempty_truthy d k v : dict_get k d = Some v -> py_truthy (JDict d) = true.
Proof. destruct d; [discriminate | reflexivity]. Qed.

Lemma non_string_name_findings w self scene_path d name :
  read_json w scene_path = Ok (JDict d) ->
  dict_get (lit "name") d = Some name ->
  is_str name = false ->
  let result := validate w self scene_path in
  exists fields e,
    issues result = map missing_field_issue fields ++ [unexpected_error_issue e]
    /\ (warnings result = []
        \/ exists duration min_duration,
             warnings result = [duration_warning duration min_duration])
    /\ suggestions result = []
    /\ valid result = false.
Proof.
  intros Hread Hn Hs result.
  pose proof (nonempty_truthy _ _ _ Hn) as Ht.
  pose proof (validate_loaded w self scene_path _ Hread Ht) as [_ Hc].
  cbv zeta in Hc. fold result in Hc. clearbody result.
  destruct (required_fields_emit self (JDict d)) as (ops & o1 & F & H1).
  destruct (missing_field_ops ops F) as (fields & Hi & Hw & Hsg).
  rewrite H1 in Hc. cbn [fst snd] in Hc.
  set (r1 := apply_ops ops
               (set_scene_data (JDict d) (new_ValidationResult (clock w)))) in *.
  assert (I1 : issues r1 = map missing_field_issue fields)
    by (unfold r1; now rewrite apply_ops_issues, Hi).
  assert (W1 : warnings r1 = [])
    by (unfold r1; now rewrite apply_ops_warnings, Hw).
  assert (S1 : suggestions r1 = [])
    by (unfold r1; now rewrite apply_ops_suggestions, Hsg).
  clearbody r1. exists fields.
  destruct o1 as [[]|e1].
  - destruct (structure_raises_non_string self d name r1 Hn Hs)
      as (e & He & Hcase).
    rewrite He in Hc. exists e. subst result. cbn.
    destruct Hcase as [[_ ->]|(a & b & ->)]; cbn; rewrite I1, W1, S1.
    + repeat split. now left.
    + repeat split. right. now exists a, b.
  - exists e1. subst result. cbn. rewrite I1, W1, S1. repeat split. now left.
Qed.

(** C10.  For a scene record in which 'name' is present and is not a string:
    the whitespace trim of the structure check raises whenever it is
    executed, the structure check always raises, and [validate] returns an
    invalid outcome whose last issue is "Unexpected error during validation:
    <message>", whose other issues are missing-required-field issues and
    whose only possible warning is the duration warning: the element checks
    and the advisory pass did not run, and no element issue or element
    warning appears.  With a numeric [min_scene_duration], the structure
    check returns without raising exactly when 'name', if present, is a
    string and 'duration', if present, is a number. *)
Theorem non_string_name_aborts (w : World) (self : SceneValidator)
    (scene_path : pystr) (d : list (pystr * json)) (name : json) :
  read_json w scene_path = Ok (JDict d) ->
  dict_get (lit "name") d = Some name ->
  is_str name = false ->
  let scene := JDict d in
  let result := validate w self scene_path in
  (forall r, check_name scene r
             = (r, Raise (Exn AttributeError
                            (lit "'" ++ type_name name
                             ++ lit "' object has no attribute 'strip'"))))
  /\ (forall r, raises (snd (_validate_scene_structure self scene r)) = true)
  /\ (exists fields e,
        issues result
        = map missing_field_issue fields
          ++ [lit "Unexpected error during validation: " ++ str_exn e]
        /\ (warnings result = []
            \/ exists duration min_duration,
                 warnings result = [duration_warning duration min_duration]))
  /\ valid result = false
  /\ suggestions result = []
  /\ scene_data result = scene
  /\ (forall s, In s (issues result) ->
        startswith (lit "Element at index ") s = false
        /\ s <> lit "Scene elements must be a list")
  /\ (forall s, In s (warnings result) ->
        startswith (lit "Element at index ") s = false
        /\ startswith (lit "Scene has ") s = false)
  /\ (forall min_duration d' r,
        validation_rule self (lit "min_scene_duration") = Ok min_duration ->
        is_numeric min_duration = true ->
        (raises (snd (_validate_scene_structure self (JDict d') r)) = false
         <-> (forall v, dict_get (lit "name") d' = Some v -> is_str v = true)
             /\ (forall v, dict_get (lit "duration") d' = Some v ->
                           is_numeric v = true))).
Proof.
  intros Hread Hn Hs scene result. subst scene.
  destruct (non_string_name_findings w self scene_path d name Hread Hn Hs)
    as (fields & e & Hi & Hw & Hsg & Hv).
  fold result in Hi, Hw, Hsg, Hv.
  split; [intro r; apply (check_name_non_string _ _ _ Hn Hs)|].
  split.
  { intro r. destruct (structure_raises_non_string self d name r Hn Hs)
      as (e' & -> & _). reflexivity. }
  split; [exists fields, e; now split|].
  split; [assumption|]. split; [assumption|].
  split.
  { apply (validate_loaded w self scene_path _ Hread (nonempty_truthy _ _ _ Hn)). }
  split.
  { intros s Hin. rewrite Hi in Hin. apply in_app_or in Hin.
    destruct Hin as [Hin|[<-|[]]].
    - apply in_map_iff in Hin. destruct Hin as (f & <- & _).
      split; [reflexivity | discriminate].
    - split; [reflexivity | discriminate]. }
  split.
  { intros s Hin. destruct Hw as [Hw|(a & b & Hw)]; rewrite Hw in Hin.
    - destruct Hin.
    - destruct Hin as [<-|[]]. split; reflexivity. }
  intros m d' r Hm Hnum. rewrite (structure_raises self d' r m Hm Hnum).
  destruct (dict_get (lit "duration") d') as [vd|];
    destruct (dict_get (lit "name") d') as [vn|].
  - split.
    + intro H. apply negb_false_iff, andb_true_iff in H. destruct H.
      split; intros v [= <-]; assumption.
    + intros [H1 H2]. now rewrite (H1 _ eq_refl), (H2 _ eq_refl).
  - split.
    + intro H. apply negb_false_iff, andb_true_iff in H. destruct H.
      split; [discriminate | intros v [= <-]; assumption].
    + intros [_ H2]. now rewrite (H2 _ eq_refl).
  - split.
    + intro H. apply negb_false_iff in H. cbn in H.
      split; [intros v [= <-]; assumption | discriminate].
    + intros [H1 _]. now rewrite (H1 _ eq_refl).
  - split; [split; discriminate | reflexivity].
Qed.

(** ** The configuration *)

Lemma rule_checks_same_rules self self' scene r :
  (forall name, In name recognized_options ->
                validation_rule self name = validation_rule self' name) ->
  rule_checks self scene r = rule_checks self' scene r.
Proof.
  intro H.
  assert (H1 := H (lit "required_fields") (or_introl eq_refl)).
  assert (H2 := H (lit "allowed_element_types") (or_intror (or_introl eq_refl))).
  assert (H3 := H (lit "max_elements_per_scene")
                  (or_intror (or_intror (or_introl eq_refl)))).
  assert (H4 := H (lit "min_scene_duration")
                  (or_intror (or_intror (or_intror (or_introl eq_refl))))).
  unfold rule_checks, _validate_required_fields, _validate_scene_structure,
    check_duration, _validate_elements.
  rewrite H1, H2, H3, H4. reflexivity.
Qed.



(** ** Exporting a report *)

(** C9 (as the code has it).  [export_report] never changes the outcome.
    If the path ends with neither ".json" nor ".html" it raises the
    unsupported-format error to its caller and writes nothing.  If the path
    ends with one of the two, it opens that file and writes the report in
    the format of the suffix: when opening fails, that error is raised to the
    caller and nothing is written; when the write fails, that error is raised
    and the file is left with what was written before the failure;
    otherwise the path is returned.  So, when the file can be opened and
    written, it raises if and only if the path has neither suffix. *)
Theorem export_report_formats (w : World) (self : ValidationResult)
    (output_path : pystr) (fs : FS) :
  let run := export_report w self output_path fs in
  let supported :=
    endswith (lit ".json") output_path || endswith (lit ".html") output_path in
  let content :=
    if endswith (lit ".json") output_path then json_dumps (report_of self)
    else _generate_html_report self in
  fst (fst run) = self
  /\ (if supported then
        match open_w_error w output_path with
        | Some e => run = ((self, fs), Raise e)
        | None =>
            match write_error w output_path content with
            | Some (n, e) =>
                run = ((self, fs_write output_path (firstn n content) fs), Raise e)
            | None => run = ((self, fs_write output_path content fs), Ok output_path)
            end
        end
      else run = ((self, fs), Raise unsupported_format))
  /\ match open_w_error w output_path, write_error w output_path content with
     | None, None => raises (snd run) = true <-> supported = false
     | _, _ => raises (snd run) = true
     end.
Proof.
  intros run supported content.
  unfold run, supported, content, export_report, export_to, write_file.
  destruct (endswith (lit ".json") output_path);
    [|destruct (endswith (lit ".html") output_path)];
    destruct (open_w_error w output_path);
    try match goal with
        | |- context [write_error w output_path ?c] =>
            destruct (write_error w output_path c) as [[n e']|]
        end;
    cbn; repeat split; try reflexivity; try discriminate.
Qed.

(** ** Further properties: the outcome of [validate] *)

Lemma keeps_ret {A} (a : A) : keeps_invariant (ret a).
Proof. intro r. now split. Qed.

Lemma keeps_eval {A} (o : outcome A) : keeps_invariant (eval o).
Proof. intro r. now split. Qed.

Lemma keeps_bind {A B} (m : M A) (k : A -> M B) :
  keeps_invariant m -> (forall a, keeps_invariant (k a)) -> keeps_invariant (bind m k).
Proof.
  intros Hm Hk r. unfold bind. destruct (Hm r) as [Hi Ht].
  destruct (m r) as [r' [a|e]]; cbn [fst] in *.
  - destruct (Hk a r') as [Hi' Ht']. split; [auto | congruence].
  - now split.
Qed.

Lemma keeps_try_catch {A} (m : M A) (h : exn -> M A) :
  keeps_invariant m -> (forall e, keeps_invariant (h e)) ->
  keeps_invariant (try_catch m h).
Proof.
  intros Hm Hh r. unfold try_catch. destruct (Hm r) as [Hi Ht].
  destruct (m r) as [r' [a|e]]; cbn [fst] in *.
  - now split.
  - destruct (Hh e r') as [Hi' Ht']. split; [auto | congruence].
Qed.

Lemma keeps_emits P {A} (m : M A) : emits P m -> keeps_invariant m.
Proof.
  intros (ops & o & _ & H) r. rewrite H. cbn [fst]. split.
  - apply invariant_apply_ops.
  - apply apply_ops_validation_time.
Qed.

Lemma keeps_add_issue s : keeps_invariant (write (add_issue s)).
Proof.
  intro r. split; [|reflexivity]. intros _.
  unfold invariant. cbn. now rewrite length_app, Nat.add_comm.
Qed.

Lemma keeps_set_scene_data v : keeps_invariant (write (set_scene_data v)).
Proof. intro r. now split. Qed.

Lemma add_suggestions_ops ss : forall r,
  fold_left (fun r s => add_suggestion s r) ss r = apply_ops (map AddSuggestion ss) r.
Proof. induction ss as [|s ss IH]; intro r; cbn; [reflexivity | apply IH]. Qed.

Lemma issues_of_suggestions ss : issues_of (map AddSuggestion ss) = [].
Proof. unfold issues_of. induction ss; cbn; auto. Qed.

Lemma warnings_of_suggestions ss : warnings_of (map AddSuggestion ss) = [].
Proof. unfold warnings_of. induction ss; cbn; auto. Qed.

Lemma suggestions_of_suggestions ss : suggestions_of (map AddSuggestion ss) = ss.
Proof. unfold suggestions_of. induction ss; cbn; [easy | now f_equal]. Qed.

Lemma advisory_pass_spec self scene r :
  advisory_pass self scene r = (apply_ops (advisory_ops self scene) r, Ok tt).
Proof.
  unfold advisory_pass, advisory_ops. destruct (gemini_available self); [|reflexivity].
  destruct (ask_gemini self (_generate_gemini_prompt scene)) as [text|e] eqn:E.
  - rewrite (gemini_validation_success _ _ _ _ E). now rewrite add_suggestions_ops.
  - now rewrite (gemini_validation_failure _ _ _ _ E).
Qed.

Lemma keeps_advisory_pass self scene : keeps_invariant (advisory_pass self scene).
Proof.
  intro r. rewrite advisory_pass_spec. cbn [fst]. split.
  - apply invariant_apply_ops.
  - apply apply_ops_validation_time.
Qed.

Lemma keeps_load w scene_path : keeps_invariant (_load_scene_data w scene_path).
Proof.
  unfold _load_scene_data. apply keeps_try_catch; [apply keeps_eval|].
  intro e. destruct (exn_class_of e); try apply keeps_eval;
    (apply keeps_bind; [apply keeps_add_issue | intro; apply keeps_ret]).
Qed.

Lemma keeps_validate_try w self scene_path :
  keeps_invariant (validate_try w self scene_path).
Proof.
  unfold validate_try. apply keeps_try_catch; [|intro; apply keeps_add_issue].
  unfold validate_body. apply keeps_bind; [apply keeps_load | intro scene].
  destruct (negb (py_truthy scene)); [apply keeps_ret|].
  unfold after_load.
  apply keeps_bind; [apply keeps_set_scene_data | intro].
  apply keeps_bind; [apply (keeps_emits _ _ (framed_rule_checks self scene)) | intro].
  apply keeps_advisory_pass.
Qed.

(** X1.  Whatever the world, the validator and the path, the outcome that
    [validate] returns satisfies [valid == (len(issues) == 0)], and carries
    the time at which the run started. *)
Theorem validate_outcome_invariant (w : World) (self : SceneValidator)
    (scene_path : pystr) :
  invariant (validate w self scene_path)
  /\ (valid (validate w self scene_path) = true
      <-> issues (validate w self scene_path) = [])
  /\ validation_time (validate w self scene_path) = clock w.
Proof.
  destruct (keeps_validate_try w self scene_path (new_ValidationResult (clock w)))
    as [Hi Ht].
  specialize (Hi eq_refl). fold (validate w self scene_path) in Hi, Ht.
  split; [assumption|]. split; [|assumption].
  unfold invariant in Hi. rewrite Hi.
  destruct (issues (validate w self scene_path)); cbn; split; congruence.
Qed.

(** X2.  A scene file that parses to a falsy value (an empty object, list or
    string, zero, false, null) is not checked at all: [validate] returns the
    outcome as it was created, valid, without findings and without snapshot,
    and its summary is the bare status line. *)
Theorem validate_falsy_scene (w : World) (self : SceneValidator)
    (scene_path : pystr) (scene : json) :
  read_json w scene_path = Ok scene ->
  py_truthy scene = false ->
  validate w self scene_path = new_ValidationResult (clock w)
  /\ valid (validate w self scene_path) = true
  /\ scene_data (validate w self scene_path) = JNull
  /\ summary (validate w self scene_path) = lit "Validation Status: VALID" ++ [10%N].
Proof.
  intros Hread Hf.
  assert (E : validate w self scene_path = new_ValidationResult (clock w)).
  { unfold validate, validate_try, validate_body, try_catch, bind.
    now rewrite (load_ok _ _ _ _ Hread), Hf. }
  rewrite E. repeat split.
Qed.

(** X3.  The advisory pass never raises and never touches the issues, the
    valid flag or the snapshot: when the service answers, it appends the
    suggestions parsed from the answer, in order, and no warning; when the
    service fails, it appends one warning and no suggestion; when the
    service is not available, it does nothing. *)
Theorem advisory_pass_effect (self : SceneValidator) (scene : json)
    (r : ValidationResult) :
  let run := advisory_pass self scene r in
  snd run = Ok tt
  /\ issues (fst run) = issues r
  /\ valid (fst run) = valid r
  /\ scene_data (fst run) = scene_data r
  /\ (if gemini_available self then
        match ask_gemini self (_generate_gemini_prompt scene) with
        | Ok text =>
            suggestions (fst run) = suggestions r ++ _parse_gemini_response text
            /\ warnings (fst run) = warnings r
        | Raise e =>
            suggestions (fst run) = suggestions r
            /\ warnings (fst run) = warnings r ++ [gemini_failure_warning e]
        end
      else fst run = r).
Proof.
  intro run. unfold run. rewrite advisory_pass_spec. cbn [fst snd].
  rewrite apply_ops_issues, apply_ops_valid, apply_ops_scene_data,
    apply_ops_suggestions, apply_ops_warnings.
  unfold advisory_ops.
  destruct (gemini_available self).
  2: { cbn. rewrite !app_nil_r, andb_true_r. repeat split. }
  destruct (ask_gemini self (_generate_gemini_prompt scene)) as [text|e].
  - rewrite issues_of_suggestions, warnings_of_suggestions,
      suggestions_of_suggestions, !app_nil_r, andb_true_r.
    repeat split.
  - cbn. rewrite !app_nil_r, andb_true_r. repeat split.
Qed.

Lemma loaded_without_suggestions w scene_path :
  suggestions (fst (_load_scene_data w scene_path (new_ValidationResult (clock w))))
  = [].
Proof.
  unfold _load_scene_data, try_catch, eval, bind, write, ret.
  destruct (read_json w scene_path) as [v|e]; [reflexivity|].
  destruct (exn_class_of e); reflexivity.
Qed.

Lemma no_gemini_no_suggestions w self scene_path :
  gemini_available self = false ->
  suggestions (validate w self scene_path) = [].
Proof.
  intro Hg. unfold validate, validate_try, validate_body, try_catch, bind.
  pose proof (loaded_without_suggestions w scene_path) as L.
  destruct (_load_scene_data w scene_path (new_ValidationResult (clock w)))
    as [r [scene|e]]; cbn [fst] in L; [|exact L].
  destruct (negb (py_truthy scene)); [exact L|].
  unfold after_load, bind, write.
  destruct (framed_rule_checks self scene) as (ops & o & Hf & H).
  rewrite H. unfold advisory_pass. rewrite Hg.
  destruct o as [[]|e]; cbn;
    now rewrite apply_ops_suggestions, (no_suggestions_of ops Hf), app_nil_r.
Qed.

(** X4.  The advisory service has no say in the verdict: with the service
    switched off, [validate] returns the same issues, the same valid flag and
    the same snapshot; the service adds at most one warning after the
    warnings of the rule checks, and without it there are no suggestions. *)
Theorem advisory_never_changes_verdict (w : World) (self : SceneValidator)
    (scene_path : pystr) :
  let full := validate w self scene_path in
  let rules_only := validate w (without_gemini self) scene_path in
  issues full = issues rules_only
  /\ valid full = valid rules_only
  /\ scene_data full = scene_data rules_only
  /\ (exists extra, warnings full = warnings rules_only ++ extra
                    /\ (List.length extra <= 1)%nat)
  /\ suggestions rules_only = [].
Proof.
  intros full rules_only.
  assert (S : suggestions rules_only = [])
    by (apply no_gemini_no_suggestions; reflexivity).
  revert S. unfold full, rules_only.
  unfold validate, validate_try, validate_body, try_catch, bind.
  destruct (_load_scene_data w scene_path (new_ValidationResult (clock w)))
    as [r [scene|e]].
  2: { cbn. intro S. repeat split; auto.
       exists []. split; [now rewrite app_nil_r | apply le_0_n]. }
  destruct (negb (py_truthy scene)).
  { cbn. intro S. repeat split; auto.
    exists []. split; [now rewrite app_nil_r | apply le_0_n]. }
  unfold after_load, bind, write.
  rewrite (rule_checks_same_rules (without_gemini self) self scene _
             (fun _ _ => eq_refl)).
  destruct (framed_rule_checks self scene) as (ops & o & Hf & H).
  rewrite H. destruct o as [[]|e].
  - rewrite !advisory_pass_spec. cbn [fst snd].
    change (advisory_ops (without_gemini self) scene) with (@nil result_op).
    cbn [apply_ops fold_left]. intro S.
    rewrite apply_ops_issues, apply_ops_valid, apply_ops_scene_data,
      apply_ops_warnings.
    assert (A : issues_of (advisory_ops self scene) = []
                /\ (List.length (warnings_of (advisory_ops self scene)) <= 1)%nat).
    { unfold advisory_ops.
      destruct (gemini_available self); [|split; [reflexivity | cbn; lia]].
      destruct (ask_gemini self (_generate_gemini_prompt scene)).
      - rewrite issues_of_suggestions, warnings_of_suggestions.
        split; [reflexivity | cbn; lia].
      - cbn. split; [reflexivity | lia]. }
    destruct A as [Ai Aw]. rewrite Ai, app_nil_r, andb_true_r.
    repeat split; [|exact S].
    now exists (warnings_of (advisory_ops self scene)).
  - cbn. intro S. repeat split; [|exact S].
    exists []. split; [now rewrite app_nil_r | apply le_0_n].
Qed.

(** ** Further properties: stripping and the parsed suggestions *)

Lemma lstrip_head s c t : lstrip s = c :: t -> is_space c = false.
Proof.
  induction s as [|a s IH]; cbn; [discriminate|].
  destruct (is_space a) eqn:E; [exact IH|]. now intros [= <- _].
Qed.

Lemma lstrip_split s :
  exists sp, s = sp ++ lstrip s /\ forallb is_space sp = true.
Proof.
  induction s as [|a s (sp & Hs & Hsp)]; [now exists []|]. cbn.
  destruct (is_space a) eqn:E.
  - exists (a :: sp). cbn. rewrite E, Hsp. split; [now f_equal | reflexivity].
  - now exists [].
Qed.

Lemma lstrip_nonspace_head c t : is_space c = false -> lstrip (c :: t) = c :: t.
Proof. intro H. cbn. now rewrite H. Qed.

Lemma lstrip_nil_iff s : lstrip s = [] <-> forallb is_space s = true.
Proof.
  induction s as [|a s IH]; cbn; [easy|].
  destruct (is_space a); cbn; [exact IH | easy].
Qed.

Lemma forallb_rev {A} (f : A -> bool) l : forallb f (rev l) = forallb f l.
Proof.
  induction l as [|a l IH]; [reflexivity|]. cbn.
  rewrite forallb_app, IH. cbn. rewrite andb_true_r. apply andb_comm.
Qed.

Lemma strip_nil_iff s : strip s = [] <-> forallb is_space s = true.
Proof.
  unfold strip. split.
  - intro H. apply (f_equal (@rev N)) in H. rewrite rev_involutive in H. cbn in H.
    apply lstrip_nil_iff in H. rewrite forallb_rev in H.
    destruct (lstrip s) as [|c t] eqn:E; [now apply lstrip_nil_iff|].
    apply lstrip_head in E. cbn in H. now rewrite E in H.
  - intro H. apply lstrip_nil_iff in H. now rewrite H.
Qed.

Lemma strip_last s c t : rev (strip s) = c :: t -> is_space c = false.
Proof. unfold strip. rewrite rev_involutive. apply lstrip_head. Qed.

Lemma strip_first s c t : strip s = c :: t -> is_space c = false.
Proof.
  unfold strip. intro H.
  destruct (lstrip_split (rev (lstrip s))) as (sp & Hs & _).
  apply (f_equal (@rev N)) in Hs. rewrite rev_involutive, rev_app_distr, H in Hs.
  cbn in Hs. now apply lstrip_head in Hs.
Qed.

Lemma strip_idempotent s : strip (strip s) = strip s.
Proof.
  destruct (strip s) as [|c t] eqn:E; [reflexivity|].
  pose proof (strip_first _ _ _ E) as Hc.
  unfold strip at 1. rewrite (lstrip_nonspace_head _ _ Hc).
  destruct (rev (c :: t)) as [|c' t'] eqn:R.
  - apply (f_equal (@rev N)) in R. now rewrite rev_involutive in R.
  - assert (Hc' : is_space c' = false).
    { apply (strip_last s c' t'). now rewrite E. }
    rewrite (lstrip_nonspace_head _ _ Hc'), <- R. apply rev_involutive.
Qed.

Lemma parse_line_cases raw :
  parse_line raw = []
  \/ exists y, parse_line raw = [strip y] /\ strip y <> [].
Proof.
  unfold parse_line, nonempty.
  destruct (startswith [bullet] (strip raw) || startswith (lit "-") (strip raw)
            || startswith (lit "*") (strip raw)).
  - destruct (strip (tl (strip raw))) eqn:E; [now left|].
    right. exists (tl (strip raw)). rewrite E. now split.
  - destruct (startswith (lit "1.") (strip raw) || startswith (lit "2.") (strip raw)
              || startswith (lit "3.") (strip raw)); [|now left].
    destruct (split_once 46%N (strip raw)) as [|p0 [|part rest]]; try now left.
    destruct (strip part) eqn:E; [now left|].
    right. exists part. rewrite E. now split.
Qed.

Lemma flat_map_length_le {A B} (f : A -> list B) (l : list A) :
  (forall x, (List.length (f x) <= 1)%nat) ->
  (List.length (flat_map f l) <= List.length l)%nat.
Proof.
  intro H. induction l as [|a l IH]; cbn; [apply le_n|].
  rewrite length_app. specialize (H a). lia.
Qed.

(** X5.  Every suggestion parsed from the service's answer is a non-empty
    text without whitespace at either end (stripping it again changes
    nothing), and an answer of n lines gives at most n suggestions. *)
Theorem parsed_suggestions_are_trimmed (response_text s : pystr) :
  In s (_parse_gemini_response response_text) ->
  s <> []
  /\ strip s = s
  /\ (forall c t, s = c :: t -> is_space c = false)
  /\ (forall c t, rev s = c :: t -> is_space c = false)
  /\ (List.length (_parse_gemini_response response_text)
      <= List.length (split_on 10%N response_text))%nat.
Proof.
  intro Hin. unfold _parse_gemini_response in *.
  apply in_flat_map in Hin. destruct Hin as (raw & _ & Hin).
  destruct (parse_line_cases raw) as [E|(y & E & Hy)]; rewrite E in Hin;
    [destruct Hin|].
  destruct Hin as [<-|[]].
  split; [assumption|]. split; [apply strip_idempotent|].
  split; [intros c t; apply strip_first|].
  split; [intros c t; apply strip_last|].
  apply flat_map_length_le. intro x.
  destruct (parse_line_cases x) as [-> | (z & -> & _)]; cbn; lia.
Qed.

(** ** Further properties: the structure check *)

Lemma warning_ops ops :
  Forall is_warning ops -> issues_of ops = [] /\ suggestions_of ops = [].
Proof.
  unfold issues_of, suggestions_of.
  induction 1 as [|o ops Ho _ [Hi Hs]]; [now split|].
  destruct o; cbn in *; try contradiction. now split.
Qed.

Lemma check_name_cases scene r :
  (exists o, check_name scene r = (r, o))
  \/ check_name scene r = (add_warning (lit "Scene has an empty name") r, Ok tt).
Proof.
  unfold check_name, bind, eval, write, ret.
  destruct (py_contains scene (JStr (lit "name"))) as [[]|]; eauto.
  destruct (py_getitem scene (lit "name")); eauto.
  destruct (py_strip a) as [[|c t]|]; eauto.
Qed.

Lemma structure_emits_warnings self scene :
  emits is_warning (_validate_scene_structure self scene).
Proof.
  unfold _validate_scene_structure, check_duration, check_name. emits_steps;
    try exact I.
  match goal with |- emits _ (match ?s with _ => _ end) => destruct s end;
    emits_steps; exact I.
Qed.

(** X6.  The structure check is advisory only: whatever the scene and the
    configuration, and also when it raises, it appends no issue and no
    suggestion, leaves the valid flag and the snapshot alone, and appends at
    most two warnings. *)
Theorem structure_check_is_advisory (self : SceneValidator) (scene : json)
    (r : ValidationResult) :
  let run := _validate_scene_structure self scene r in
  issues (fst run) = issues r
  /\ valid (fst run) = valid r
  /\ suggestions (fst run) = suggestions r
  /\ scene_data (fst run) = scene_data r
  /\ exists added,
       warnings (fst run) = warnings r ++ added
       /\ (List.length added <= 2)%nat.
Proof.
  intro run. unfold run.
  destruct (structure_emits_warnings self scene) as (ops & o & Hw & H).
  destruct (warning_ops ops Hw) as [Hi Hs].
  split; [rewrite H; cbn; now rewrite apply_ops_issues, Hi, app_nil_r|].
  split; [rewrite H; cbn; now rewrite apply_ops_valid, Hi, andb_true_r|].
  split; [rewrite H; cbn; now rewrite apply_ops_suggestions, Hs, app_nil_r|].
  split; [rewrite H; cbn; apply apply_ops_scene_data|].
  clear. unfold _validate_scene_structure, bind.
  destruct (check_duration_cases self scene r) as [[o E]|(a & b & E)]; rewrite E.
  - destruct o as [[]|e].
    + destruct (check_name_cases scene r) as [[o' E']| E']; rewrite E'; cbn.
      * exists []. rewrite app_nil_r. split; [reflexivity | cbn; lia].
      * eexists. split; [reflexivity | cbn; lia].
    + exists []. cbn. rewrite app_nil_r. split; [reflexivity | cbn; lia].
  - set (r1 := add_warning (duration_warning a b) r).
    destruct (check_name_cases scene r1) as [[o' E']| E']; rewrite E'; cbn.
    + eexists. split; [reflexivity | cbn; lia].
    + rewrite <- app_assoc. eexists. split; [reflexivity | cbn; lia].
Qed.

Lemma py_lt_numbers v m :
  is_numeric v = true -> is_numeric m = true ->
  py_cmp OpLt v m = Ok (num_lt v m).
Proof. destruct v, m; try discriminate; reflexivity. Qed.

Lemma structure_check_effect self d m r :
  validation_rule self (lit "min_scene_duration") = Ok m ->
  is_numeric m = true ->
  (forall v, dict_get (lit "duration") d = Some v -> is_numeric v = true) ->
  (forall v, dict_get (lit "name") d = Some v -> is_str v = true) ->
  _validate_scene_structure self (JDict d) r
  = (name_step d (duration_step m d r), Ok tt).
Proof.
  intros Hm Hnum Hd Hn.
  unfold _validate_scene_structure, check_duration, check_name, bind, eval.
  rewrite Hm. cbn [py_contains]. unfold dict_has, duration_step, name_step.
  destruct (dict_get (lit "duration") d) as [v|] eqn:Ed.
  - cbn [py_getitem]. rewrite Ed.
    rewrite (py_lt_numbers v m (Hd v eq_refl) Hnum).
    destruct (dict_get (lit "name") d) as [n|] eqn:En.
    + specialize (Hn n eq_refl). destruct n; try discriminate.
      cbn [py_strip]. unfold is_blank.
      destruct (strip s); destruct (num_lt v m); reflexivity.
    + destruct (num_lt v m); reflexivity.
  - destruct (dict_get (lit "name") d) as [n|] eqn:En; [|reflexivity].
    cbn [py_getitem ret]. rewrite En.
    specialize (Hn n eq_refl). destruct n; try discriminate.
    cbn [py_strip]. unfold is_blank. destruct (strip s); reflexivity.
Qed.

Lemma is_blank_spec s : is_blank s = forallb is_space s.
Proof.
  unfold is_blank. destruct (strip s) as [|c t] eqn:E.
  - symmetry. now apply strip_nil_iff.
  - destruct (forallb is_space s) eqn:F; [|reflexivity].
    apply strip_nil_iff in F. congruence.
Qed.

(** X7.  For a record whose duration, if present, is a number and whose
    name, if present, is a string, and a numeric [min_scene_duration], the
    structure check returns normally; it appends the duration warning exactly
    when the duration is present and less than the minimum, and then the
    empty-name warning exactly when the name is present and consists of
    whitespace only (or is empty). *)
Theorem structure_check_spec (self : SceneValidator) (d : list (pystr * json))
    (m : json) (r : ValidationResult) :
  validation_rule self (lit "min_scene_duration") = Ok m ->
  is_numeric m = true ->
  (forall v, dict_get (lit "duration") d = Some v -> is_numeric v = true) ->
  (forall v, dict_get (lit "name") d = Some v -> is_str v = true) ->
  _validate_scene_structure self (JDict d) r
  = (let r1 :=
       match dict_get (lit "duration") d with
       | Some v => if num_lt v m then add_warning (duration_warning v m) r else r
       | None => r
       end in
     match dict_get (lit "name") d with
     | Some (JStr s) =>
         if forallb is_space s
         then add_warning (lit "Scene has an empty name") r1
         else r1
     | _ => r1
     end, Ok tt).
Proof.
  intros Hm Hnum Hd Hn. rewrite (structure_check_effect _ _ _ r Hm Hnum Hd Hn).
  unfold name_step, duration_step. cbv zeta.
  destruct (dict_get (lit "name") d) as [[]|]; try reflexivity.
  now rewrite is_blank_spec.
Qed.

(** ** Further properties: the element check *)

Lemma elements_loop types els : forall i r,
  for_each (enumerate_from i els) (check_element (JList (map JStr types))) r
  = (fold_left (any_element_effect types) (enumerate_from i els) r, Ok tt).
Proof.
  induction els as [|el els IH]; intros i r; [reflexivity|].
  cbn [enumerate_from for_each fold_left]. unfold bind.
  assert (E : check_element (JList (map JStr types)) (i, el) r
              = (any_element_effect types r (i, el), Ok tt)).
  { destruct el; try reflexivity. apply check_element_mapping. }
  rewrite E. apply IH.
Qed.

Lemma py_gt_numbers n max :
  is_numeric max = true -> py_cmp OpGt (JInt n) max = Ok (num_lt max (JInt n)).
Proof. destruct max; try discriminate; reflexivity. Qed.

Lemma elements_check_effect self types max d r :
  validation_rule self (lit "allowed_element_types") = Ok (JList (map JStr types)) ->
  validation_rule self (lit "max_elements_per_scene") = Ok max ->
  is_numeric max = true ->
  _validate_elements self (JDict d) r = (elements_effect types max d r, Ok tt).
Proof.
  intros Ha Hmax Hnum.
  unfold _validate_elements, elements_effect, bind, eval.
  cbn [py_contains]. unfold dict_has.
  destruct (dict_get (lit "elements") d) as [v|] eqn:E; [|reflexivity].
  cbn [negb py_getitem]. rewrite E.
  destruct v; try reflexivity.
  rewrite Hmax, (py_gt_numbers _ _ Hnum), Ha. unfold count_step.
  destruct (num_lt max (JInt (Z.of_nat (List.length l)))); cbn [write ret];
    unfold enumerate; apply elements_loop.
Qed.

(** X8.  With [allowed_element_types] a list of strings and a numeric
    [max_elements_per_scene], the element check of a record never raises:
    without 'elements' it does nothing; if 'elements' is not a list it
    appends the one issue "Scene elements must be a list"; otherwise it
    appends the count warning exactly when the list is longer than the
    maximum, and then handles the elements one by one in order, a
    non-mapping drawing the issue "Element at index <i> is not a valid
    object". *)
Theorem elements_check_spec (self : SceneValidator) (types : list pystr)
    (max : json) (d : list (pystr * json)) (r : ValidationResult) :
  validation_rule self (lit "allowed_element_types") = Ok (JList (map JStr types)) ->
  validation_rule self (lit "max_elements_per_scene") = Ok max ->
  is_numeric max = true ->
  _validate_elements self (JDict d) r
  = (match dict_get (lit "elements") d with
     | None => r
     | Some (JList els) =>
         fold_left
           (fun acc (ie : nat * json) =>
              match snd ie with
              | JDict e => element_effect types (fst ie) e acc
              | _ => add_issue
                       (lit "Element at index " ++ str_of_nat (fst ie)
                        ++ lit " is not a valid object") acc
              end)
           (enumerate els)
           (if num_lt max (JInt (Z.of_nat (List.length els)))
            then add_warning
                   (lit "Scene has " ++ str_of_nat (List.length els)
                    ++ lit " elements, which exceeds the recommended maximum of "
                    ++ py_str max) r
            else r)
     | Some _ => add_issue (lit "Scene elements must be a list") r
     end, Ok tt).
Proof.
  intros Ha Hmax Hnum. rewrite (elements_check_effect _ _ _ _ r Ha Hmax Hnum).
  unfold elements_effect, count_step, count_warning.
  destruct (dict_get (lit "elements") d) as [[]|]; reflexivity.
Qed.


(** ** Further properties: the verdict *)

Lemma validate_of_rule_checks w self scene_path scene :
  read_json w scene_path = Ok scene ->
  py_truthy scene = true ->
  validate w self scene_path
  = match rule_checks self scene
            (set_scene_data scene (new_ValidationResult (clock w))) with
    | (r, Ok _) => fst (advisory_pass self scene r)
    | (r, Raise e) => add_issue (unexpected_error_issue e) r
    end.
Proof.
  intros Hread Ht. unfold validate, validate_try, try_catch.
  rewrite (validate_body_loaded _ _ _ _ _ Hread Ht).
  unfold after_load, bind, write.
  destruct (rule_checks self scene
              (set_scene_data scene (new_ValidationResult (clock w))))
    as [r [[]|e]]; [|reflexivity].
  pose proof (advisory_pass_never_raises self scene r) as Ha.
  destruct (advisory_pass self scene r) as [r' o]. cbn in Ha. now subst o.
Qed.

Lemma required_fields_effect self d names r :
  validation_rule self (lit "required_fields") = Ok (JList (map JStr names)) ->
  _validate_required_fields self (JDict d) r
  = (apply_ops
       (map (fun n => AddIssue (lit "Missing required field: " ++ n))
          (missing_fields d names)) r, Ok tt).
Proof.
  intro Hcfg. unfold _validate_required_fields, bind at 1. unfold eval at 1.
  rewrite Hcfg. unfold bind at 1. cbn [eval py_iter].
  apply required_fields_loop.
Qed.

Lemma missing_fields_none d names :
  (List.length (missing_fields d names) =? 0)%nat
  = forallb (fun n => dict_has n d) names.
Proof.
  unfold missing_fields. induction names as [|n names IH]; [reflexivity|].
  cbn. destruct (dict_has n d); cbn; [exact IH | reflexivity].
Qed.

Lemma structure_keeps_verdict self scene r :
  valid (fst (_validate_scene_structure self scene r)) = valid r
  /\ issues (fst (_validate_scene_structure self scene r)) = issues r.
Proof.
  destruct (structure_emits_warnings self scene) as (ops & o & Hw & H).
  destruct (warning_ops ops Hw) as [Hi _]. rewrite H. cbn.
  now rewrite apply_ops_valid, apply_ops_issues, Hi, app_nil_r, andb_true_r.
Qed.

Lemma element_effect_valid types i e r :
  valid (element_effect types i e r) = valid r && element_accepted types (JDict e).
Proof.
  unfold element_effect, element_accepted, id_step, type_step.
  destruct (dict_get (lit "type") e) as [ty|]; [|now rewrite andb_false_r].
  destruct (existsb (fun x => py_eq x ty) (map JStr types));
    destruct (dict_has (lit "id") e); cbn;
    now rewrite ?andb_true_r, ?andb_false_r.
Qed.

Lemma any_element_effect_valid types r ie :
  valid (any_element_effect types r ie) = valid r && element_accepted types (snd ie).
Proof.
  unfold any_element_effect. destruct ie as [i el]. cbn [fst snd].
  destruct el; try (cbn; now rewrite andb_false_r).
  apply element_effect_valid.
Qed.

Lemma elements_fold_valid types els : forall i r,
  valid (fold_left (any_element_effect types) (enumerate_from i els) r)
  = valid r && forallb (element_accepted types) els.
Proof.
  induction els as [|el els IH]; intros i r; cbn [enumerate_from fold_left forallb].
  - now rewrite andb_true_r.
  - rewrite IH, any_element_effect_valid. cbn [snd]. now rewrite andb_assoc.
Qed.

Lemma elements_effect_valid types max d r :
  valid (elements_effect types max d r)
  = valid r && match dict_get (lit "elements") d with
               | None => true
               | Some (JList els) => forallb (element_accepted types) els
               | Some _ => false
               end.
Proof.
  unfold elements_effect.
  destruct (dict_get (lit "elements") d) as [v|]; [|now rewrite andb_true_r].
  destruct v; try (cbn; now rewrite andb_false_r).
  unfold enumerate. rewrite elements_fold_valid. f_equal.
  unfold count_step. now destruct (num_lt max _).
Qed.

Lemma advisory_pass_valid self scene r :
  valid (fst (advisory_pass self scene r)) = valid r
  /\ issues (fst (advisory_pass self scene r)) = issues r.
Proof.
  rewrite advisory_pass_spec. cbn [fst].
  rewrite apply_ops_valid, apply_ops_issues.
  assert (A : issues_of (advisory_ops self scene) = []).
  { unfold advisory_ops. destruct (gemini_available self); [|reflexivity].
    destruct (ask_gemini self (_generate_gemini_prompt scene)); [|reflexivity].
    apply issues_of_suggestions. }
  now rewrite A, app_nil_r, andb_true_r.
Qed.

(** X9.  With well-formed rules (required fields and allowed types are lists
    of strings, the two bounds are numbers), the verdict on a non-empty
    record is decided by four conditions and nothing else: [validate]
    returns valid = true exactly when every required field is present, the
    duration (if any) is a number, the name (if any) is a string, and the
    elements (if any) are a list of mappings whose types are allowed. *)
Theorem verdict_characterised (w : World) (self : SceneValidator)
    (scene_path : pystr) (names types : list pystr) (max m : json)
    (d : list (pystr * json)) :
  validation_rule self (lit "required_fields") = Ok (JList (map JStr names)) ->
  validation_rule self (lit "allowed_element_types") = Ok (JList (map JStr types)) ->
  validation_rule self (lit "max_elements_per_scene") = Ok max ->
  is_numeric max = true ->
  validation_rule self (lit "min_scene_duration") = Ok m ->
  is_numeric m = true ->
  read_json w scene_path = Ok (JDict d) ->
  d <> [] ->
  valid (validate w self scene_path) = record_accepted names types d.
Proof.
  intros Hreq Hall Hmax Hnmax Hmin Hnmin Hread Hd.
  assert (Ht : py_truthy (JDict d) = true) by (destruct d; [contradiction | reflexivity]).
  rewrite (validate_of_rule_checks _ _ _ _ Hread Ht).
  unfold rule_checks, bind.
  rewrite (required_fields_effect _ _ _ _ Hreq).
  set (r1 := apply_ops _ _).
  assert (V1 : valid r1 = forallb (fun n => dict_has n d) names).
  { unfold r1. rewrite apply_ops_valid. cbn [valid set_scene_data new_ValidationResult].
    rewrite <- (map_map (fun n => lit "Missing required field: " ++ n) AddIssue),
      issues_of_add_issues, length_map. apply missing_fields_none. }
  clearbody r1.
  pose proof (structure_raises self d r1 m Hmin Hnmin) as Hr.
  pose proof (structure_keeps_verdict self (JDict d) r1) as [V2 _].
  unfold record_accepted.
  destruct (_validate_scene_structure self (JDict d) r1) as [r2 [[]|e]];
    cbn [fst snd raises] in *.
  - symmetry in Hr. apply negb_false_iff in Hr.
    rewrite (elements_check_effect _ _ _ _ r2 Hall Hmax Hnmax).
    destruct (advisory_pass_valid self (JDict d) (elements_effect types max d r2))
      as [-> _].
    rewrite elements_effect_valid, V2, V1, <- !andb_assoc.
    f_equal. rewrite andb_assoc, Hr. reflexivity.
  - symmetry in Hr. apply negb_true_iff in Hr.
    cbn [valid add_issue]. rewrite <- !andb_assoc, (andb_assoc _ _ (match _ with None => true | _ => _ end)), Hr.
    now rewrite andb_false_r.
Qed.


Lemma elements_fold_clean types els : forall i r,
  forallb (element_clean types) els = true ->
  fold_left (any_element_effect types) (enumerate_from i els) r = r.
Proof.
  induction els as [|el els IH]; intros i r H; [reflexivity|].
  cbn [forallb] in H. apply andb_true_iff in H. destruct H as [Hel Hels].
  cbn [enumerate_from fold_left].
  assert (E : any_element_effect types r (i, el) = r).
  { unfold any_element_effect. cbn [fst snd].
    destruct el; try discriminate. cbn [element_clean element_accepted] in Hel.
    apply andb_true_iff in Hel. destruct Hel as [Hty Hid].
    unfold element_effect, id_step, type_step.
    destruct (dict_get (lit "type") d) as [ty|]; [|discriminate].
    now rewrite Hty, Hid. }
  rewrite E. now apply IH.
Qed.

(** X10.  With well-formed rules, a non-empty record draws no finding at all
    when every required field is present, the duration (if any) is a number
    not below the minimum, the name (if any) is a string that is not blank,
    and the elements (if any) are a list, not longer than the maximum, of
    mappings with an allowed type and an id: the outcome that reaches the
    advisory pass holds nothing but the snapshot, so that without the
    advisory service [validate] returns valid = true and no issue, warning
    or suggestion. *)
Theorem clean_record_no_findings (w : World) (self : SceneValidator)
    (scene_path : pystr) (names types : list pystr) (max m : json)
    (d : list (pystr * json)) :
  validation_rule self (lit "required_fields") = Ok (JList (map JStr names)) ->
  validation_rule self (lit "allowed_element_types") = Ok (JList (map JStr types)) ->
  validation_rule self (lit "max_elements_per_scene") = Ok max ->
  is_numeric max = true ->
  validation_rule self (lit "min_scene_duration") = Ok m ->
  is_numeric m = true ->
  read_json w scene_path = Ok (JDict d) ->
  d <> [] ->
  record_clean names types max m d = true ->
  let snapshot_only := set_scene_data (JDict d) (new_ValidationResult (clock w)) in
  validate w self scene_path = fst (advisory_pass self (JDict d) snapshot_only)
  /\ valid (validate w self scene_path) = true
  /\ issues (validate w self scene_path) = []
  /\ (if gemini_available self then True
      else validate w self scene_path = snapshot_only
           /\ warnings (validate w self scene_path) = []
           /\ suggestions (validate w self scene_path) = []).
Proof.
  intros Hreq Hall Hmax Hnmax Hmin Hnmin Hread Hd Hclean snapshot_only.
  assert (Ht : py_truthy (JDict d) = true) by (destruct d; [contradiction | reflexivity]).
  unfold record_clean in Hclean.
  apply andb_true_iff in Hclean. destruct Hclean as [Hclean Hels].
  apply andb_true_iff in Hclean. destruct Hclean as [Hclean Hname].
  apply andb_true_iff in Hclean. destruct Hclean as [Hfields Hdur].
  assert (E : rule_checks self (JDict d) snapshot_only = (snapshot_only, Ok tt)).
  { unfold rule_checks, bind.
    rewrite (required_fields_effect _ _ _ _ Hreq).
    assert (M : missing_fields d names = []).
    { pose proof (missing_fields_none d names) as Hm. rewrite Hfields in Hm.
      destruct (missing_fields d names); [reflexivity | discriminate]. }
    rewrite M. cbn [map apply_ops fold_left].
    rewrite (structure_check_effect self d m snapshot_only Hmin Hnmin).
    2: { intros v Hv. rewrite Hv in Hdur. now apply andb_true_iff in Hdur. }
    2: { intros v Hv. rewrite Hv in Hname. now destruct v. }
    rewrite (elements_check_effect _ _ _ _ _ Hall Hmax Hnmax).
    f_equal.
    assert (D : duration_step m d snapshot_only = snapshot_only).
    { unfold duration_step. destruct (dict_get (lit "duration") d); [|reflexivity].
      apply andb_true_iff in Hdur. destruct Hdur as [_ Hlt].
      apply negb_true_iff in Hlt. now rewrite Hlt. }
    assert (N : name_step d snapshot_only = snapshot_only).
    { unfold name_step. destruct (dict_get (lit "name") d) as [[]|]; try reflexivity.
      apply negb_true_iff in Hname. now rewrite Hname. }
    rewrite D, N. unfold elements_effect.
    destruct (dict_get (lit "elements") d) as [v|]; [|reflexivity].
    destruct v; try discriminate.
    apply andb_true_iff in Hels. destruct Hels as [Hcount Hall_clean].
    apply negb_true_iff in Hcount. unfold count_step. rewrite Hcount.
    unfold enumerate. now apply elements_fold_clean. }
  assert (V : validate w self scene_path
              = fst (advisory_pass self (JDict d) snapshot_only)).
  { rewrite (validate_of_rule_checks _ _ _ _ Hread Ht). fold snapshot_only.
    now rewrite E. }
  destruct (advisory_pass_valid self (JDict d) snapshot_only) as [Hv Hi].
  rewrite V. split; [reflexivity|]. split; [now rewrite Hv|].
  split; [now rewrite Hi|].
  unfold advisory_pass. destruct (gemini_available self); [exact I|].
  cbn. repeat split.
Qed.


(** ** Further properties: the constructor *)

Lemma setup_gemini_cases w cfg b model :
  _setup_gemini_api w cfg = Ok (b, model) ->
  (b = true ->
   (exists handle, model = Some handle)
   /\ exists key, environ_GEMINI_API_KEY w = Some key /\ key <> [])
  /\ (b = false -> model = None).
Proof.
  unfold _setup_gemini_api, bind_outcome.
  destruct (py_get cfg (lit "gemini_api") (JDict [])) as [g|]; [|discriminate].
  destruct (py_get g (lit "use_gemini") (JBool false)) as [u|]; [|discriminate].
  destruct (py_truthy u).
  2: { intros [= <- <-]. split; [discriminate | reflexivity]. }
  destruct (environ_GEMINI_API_KEY w) as [[|c key]|].
  1, 3: intros [= <- <-]; split; [discriminate | reflexivity].
  destruct (genai_configure w (c :: key)).
  2: { intros [= <- <-]. split; [discriminate | reflexivity]. }
  destruct (py_getitem cfg (lit "gemini_api")).
  2: { intros [= <- <-]. split; [discriminate | reflexivity]. }
  destruct (py_getitem a0 (lit "model_name")).
  2: { intros [= <- <-]. split; [discriminate | reflexivity]. }
  destruct (genai_GenerativeModel w a1); intros [= <- <-].
  - split; [|discriminate]. intros _. split; [now eexists|].
    exists (c :: key). split; [reflexivity | discriminate].
  - split; [discriminate | reflexivity].
Qed.

Lemma setup_gemini_total w top :
  match dict_get (lit "gemini_api") top with
  | None | Some (JDict _) => True
  | Some _ => False
  end ->
  exists g, _setup_gemini_api w (JDict top) = Ok g.
Proof.
  intro H. unfold _setup_gemini_api, bind_outcome. cbn [py_get py_getitem].
  destruct (dict_get (lit "gemini_api") top) as [g|].
  - destruct g; try contradiction. cbn [py_get].
    destruct (dict_get (lit "use_gemini") d) as [u|]; [|cbn; eauto].
    destruct (py_truthy u); [|eauto].
    destruct (environ_GEMINI_API_KEY w) as [[|c key]|]; eauto.
    destruct (genai_configure w (c :: key)); eauto.
    cbn [py_getitem].
    destruct (dict_get (lit "model_name") d) as [mn|]; eauto.
    destruct (genai_GenerativeModel w mn); eauto.
  - cbn. eauto.
Qed.

(** X11.  Built without a configuration file (no path, or an empty one),
    the validator always comes into being, whatever the environment and
    whatever the service library does, and its configuration is the built-in
    one. *)
Theorem constructor_without_config (w : World) (config_path : option pystr) :
  config_path = None \/ config_path = Some [] ->
  exists self,
    SceneValidator_init w config_path = Ok self
    /\ config self = default_config.
Proof.
  intros H. unfold SceneValidator_init.
  assert (L : _load_config w config_path = Ok default_config)
    by (destruct H as [-> | ->]; reflexivity).
  rewrite L. cbn [bind_outcome].
  destruct (setup_gemini_total w
              match default_config with JDict top => top | _ => [] end I)
    as (g & Hg).
  change (JDict _) with default_config in Hg. rewrite Hg.
  cbn [bind_outcome]. eexists. split; reflexivity.
Qed.

(** X12.  A validator that the constructor returns has the advisory service
    available only with a model handle in place and only when a non-empty
    API key was in the environment; without the key the service is off, and
    then [validate] returns no suggestion and exactly what the rule checks
    give. *)
Theorem constructor_gemini_handle (w : World) (config_path : option pystr)
    (self : SceneValidator) :
  SceneValidator_init w config_path = Ok self ->
  (gemini_available self = true ->
   (exists handle, gemini_model self = Some handle)
   /\ exists key, environ_GEMINI_API_KEY w = Some key /\ key <> [])
  /\ (gemini_available self = false ->
      self = without_gemini self
      /\ forall w' scene_path, suggestions (validate w' self scene_path) = []).
Proof.
  unfold SceneValidator_init, bind_outcome.
  destruct (_load_config w config_path) as [cfg|]; [|discriminate].
  destruct (_setup_gemini_api w cfg) as [[b model]|] eqn:E; [|discriminate].
  intros [= <-]. cbn [gemini_available gemini_model fst snd].
  destruct (setup_gemini_cases _ _ _ _ E) as [Ht Hf].
  split; [exact Ht|].
  intro Hb. rewrite (Hf Hb). subst b.
  split; [reflexivity|].
  intros w' scene_path.
  now apply no_gemini_no_suggestions.
Qed.

(** X13.  A configuration file that holds valid JSON but not an object
    makes the constructor raise [AttributeError]: the loaded value is used
    as the configuration and has no [get]; the same happens when it is an
    object whose "gemini_api" is not an object. *)
Theorem constructor_rejects_non_object_config (w : World) (path : pystr)
    (cfg : json) :
  path <> [] ->
  read_json w path = Ok cfg ->
  match cfg with
  | JDict top =>
      match dict_get (lit "gemini_api") top with
      | None | Some (JDict _) =>
          exists self, SceneValidator_init w (Some path) = Ok self
                       /\ config self = cfg
      | Some g =>
          SceneValidator_init w (Some path)
          = Raise (Exn AttributeError
                     (lit "'" ++ type_name g ++ lit "' object has no attribute 'get'"))
      end
  | _ =>
      SceneValidator_init w (Some path)
      = Raise (Exn AttributeError
                 (lit "'" ++ type_name cfg ++ lit "' object has no attribute 'get'"))
  end.
Proof.
  intros Hpath Hread. unfold SceneValidator_init.
  assert (L : _load_config w (Some path) = Ok cfg).
  { destruct path; [contradiction|]. unfold _load_config. now rewrite Hread. }
  rewrite L. cbn [bind_outcome].
  destruct cfg; try reflexivity.
  pose proof (setup_gemini_total w d) as T.
  destruct (dict_get (lit "gemini_api") d) as [g|] eqn:G.
  - destruct g;
      try (unfold _setup_gemini_api; cbn [py_get bind_outcome]; rewrite G;
           reflexivity).
    destruct (T I) as (g & ->). cbn [bind_outcome]. eexists. now split.
  - destruct (T I) as (g & ->). cbn [bind_outcome]. eexists. now split.
Qed.

(** X14.  A configuration without "validation_rules" (an empty object, for
    one) is accepted by the constructor, but then every scene file that
    parses to a non-empty value is reported invalid with the single issue
    "Unexpected error during validation: 'validation_rules'", after the
    snapshot and before any rule is checked. *)
Theorem config_without_rules (w : World) (self : SceneValidator)
    (top : list (pystr * json)) (scene_path : pystr) (scene : json) :
  config self = JDict top ->
  dict_get (lit "validation_rules") top = None ->
  read_json w scene_path = Ok scene ->
  py_truthy scene = true ->
  validate w self scene_path
  = add_issue (lit "Unexpected error during validation: 'validation_rules'")
      (set_scene_data scene (new_ValidationResult (clock w))).
Proof.
  intros Hc Hr Hread Ht.
  rewrite (validate_of_rule_checks _ _ _ _ Hread Ht).
  unfold rule_checks, _validate_required_fields, validation_rule, bind, eval.
  rewrite Hc. cbn [py_getitem]. rewrite Hr. reflexivity.
Qed.


(** ** Further properties: the command line, the summary and the report *)

Lemma startswith_app p t : startswith p (p ++ t) = true.
Proof. induction p as [|c p IH]; cbn; [reflexivity|]. now rewrite N.eqb_refl. Qed.

Lemma endswith_app s p : endswith p (s ++ p) = true.
Proof. unfold endswith. rewrite rev_app_distr. apply startswith_app. Qed.

Lemma startswith_other_head a b p q s :
  a <> b -> startswith (a :: p) s = true -> startswith (b :: q) s = false.
Proof.
  intros Hab. destruct s as [|c s]; cbn; [discriminate|].
  destruct (N.eqb_spec a c) as [<-|]; [|discriminate].
  intros _. destruct (N.eqb_spec b a); [congruence | reflexivity].
Qed.

Lemma html_is_not_json s :
  endswith (lit ".html") s = true -> endswith (lit ".json") s = false.
Proof.
  unfold endswith. apply startswith_other_head. discriminate.
Qed.

Lemma report_path_suffix output f :
  endswith (lit "." ++ format_name f) (report_path output f) = true.
Proof.
  unfold report_path.
  destruct (endswith (lit "." ++ format_name f) output) eqn:E; [exact E|].
  apply endswith_app.
Qed.

Lemma export_at_report_path w result output f fs :
  export_report w result (report_path output f) fs
  = export_to w result (report_path output f)
      match f with
      | FormatJson => json_dumps (report_of result)
      | FormatHtml => _generate_html_report result
      end fs.
Proof.
  pose proof (report_path_suffix output f) as Hs. unfold export_report.
  destruct f; cbn [format_name] in Hs.
  - change (lit "." ++ lit "json") with (lit ".json") in Hs. now rewrite Hs.
  - change (lit "." ++ lit "html") with (lit ".html") in Hs.
    now rewrite (html_is_not_json _ Hs), Hs.
Qed.

Lemma init_without_path w config_path :
  config_path = None \/ config_path = Some [] ->
  exists self, SceneValidator_init w config_path = Ok self.
Proof.
  intros H. unfold SceneValidator_init.
  assert (L : _load_config w config_path = Ok default_config)
    by (destruct H as [-> | ->]; reflexivity).
  rewrite L. cbn [bind_outcome].
  destruct (setup_gemini_total w
              match default_config with JDict top => top | _ => [] end I)
    as (g & Hg).
  change (JDict _) with default_config in Hg. rewrite Hg.
  cbn [bind_outcome]. now eexists.
Qed.

(** X15.  When [main] is given a non-empty output destination, the path it
    exports to always ends with the extension of the requested format, so
    [export_report] never takes its unsupported-format branch there and what
    it writes is the report in the requested format (HTML also when the
    given name ends with ".json").  [main] then raises exactly when one of
    its steps does: the constructor (nothing is printed or written), the
    print of the summary, the opening of the file (nothing is written), the
    write (the file is left with what was written before the failure), or
    the print of the confirmation (the report is written by then);
    otherwise it prints the summary and the confirmation and returns. *)
Theorem main_writes_requested_format (w : World) (args : Args) (fs : FS)
    (output : pystr) :
  arg_output args = Some output ->
  output <> [] ->
  let path := report_path output (arg_format args) in
  let content := fun result =>
    match arg_format args with
    | FormatJson => json_dumps (report_of result)
    | FormatHtml => _generate_html_report result
    end in
  let saved := lit "Validation report saved to " ++ path in
  endswith (lit "." ++ format_name (arg_format args)) path = true
  /\ (forall result fs0,
        export_report w result path fs0
        = match open_w_error w path with
          | Some e => ((result, fs0), Raise e)
          | None =>
              match write_error w path (content result) with
              | Some (n, e) =>
                  ((result, fs_write path (firstn n (content result)) fs0), Raise e)
              | None => ((result, fs_write path (content result) fs0), Ok path)
              end
          end)
  /\ main w args fs
     = match SceneValidator_init w (arg_config args) with
       | Raise e => (([], fs), Raise e)
       | Ok validator =>
           let result := validate w validator (arg_scene_path args) in
           match print_error w (summary result) with
           | Some (n, e) => ((firstn n (summary result ++ [10%N]), fs), Raise e)
           | None =>
               let printed := summary result ++ [10%N] in
               match open_w_error w path with
               | Some e => ((printed, fs), Raise e)
               | None =>
                   match write_error w path (content result) with
                   | Some (n, e) =>
                       ((printed, fs_write path (firstn n (content result)) fs),
                        Raise e)
                   | None =>
                       let fs' := fs_write path (content result) fs in
                       match print_error w saved with
                       | Some (n, e) =>
                           ((printed ++ firstn n (saved ++ [10%N]), fs'), Raise e)
                       | None => ((printed ++ saved ++ [10%N], fs'), Ok tt)
                       end
                   end
               end
           end
       end.
Proof.
  intros Hout Hne path content saved.
  split; [apply report_path_suffix|].
  assert (E : forall result fs0,
             export_report w result path fs0
             = match open_w_error w path with
               | Some e => ((result, fs0), Raise e)
               | None =>
                   match write_error w path (content result) with
                   | Some (n, e) =>
                       ((result, fs_write path (firstn n (content result)) fs0),
                        Raise e)
                   | None => ((result, fs_write path (content result) fs0), Ok path)
                   end
               end).
  { intros result fs0. unfold path. rewrite export_at_report_path.
    unfold export_to, write_file. fold path. fold (content result).
    destruct (open_w_error w path); [reflexivity|].
    destruct (write_error w path (content result)) as [[n e]|]; reflexivity. }
  split; [exact E|].
  unfold main. destruct (SceneValidator_init w (arg_config args)) as [validator|e];
    [|reflexivity].
  cbv zeta. unfold py_print at 1.
  destruct (print_error w (summary (validate w validator (arg_scene_path args))))
    as [[n e]|]; [reflexivity|].
  rewrite Hout. destruct output as [|c output]; [contradiction|].
  fold path. rewrite E.
  destruct (open_w_error w path); [reflexivity|].
  destruct (write_error w path
              (content (validate w validator (arg_scene_path args))))
    as [[n e]|]; [reflexivity|].
  unfold py_print. fold saved.
  destruct (print_error w saved) as [[n e]|]; reflexivity.
Qed.

(** X16.  Run without a configuration file and without an output
    destination on a scene file that does not exist, [main] always gets its
    validator, writes no file and prints the summary made of the INVALID
    status line and the one issue "Scene file not found: <path>"; it returns
    normally, unless that print itself fails, in which case the error of the
    print is what [main] raises. *)
Theorem main_missing_scene_file (w : World) (args : Args) (fs : FS) (e : exn) :
  arg_config args = None \/ arg_config args = Some [] ->
  arg_output args = None \/ arg_output args = Some [] ->
  read_json w (arg_scene_path args) = Raise e ->
  exn_class_of e = FileNotFoundError ->
  let text :=
    lit "Validation Status: INVALID" ++ [10%N; 10%N] ++ lit "Issues:" ++ [10%N]
    ++ lit "1. Scene file not found: " ++ arg_scene_path args ++ [10%N] in
  main w args fs
  = match print_error w text with
    | None => ((text ++ [10%N], fs), Ok tt)
    | Some (n, e') => ((firstn n (text ++ [10%N]), fs), Raise e')
    end.
Proof.
  intros Hcfg Hout Hread Hclass text.
  destruct (init_without_path w _ Hcfg) as (validator & Hinit).
  unfold main. rewrite Hinit. cbv zeta.
  rewrite (validate_load_failed _ _ _ _ Hread).
  unfold load_failure_issue. rewrite Hclass.
  assert (S : summary
                (add_issue (lit "Scene file not found: " ++ arg_scene_path args)
                   (new_ValidationResult (clock w))) = text).
  { unfold summary, summary_section, text. cbn.
    rewrite <- !app_assoc. reflexivity. }
  rewrite S. unfold py_print.
  destruct (print_error w text) as [[n e']|]; [reflexivity|].
  destruct Hout as [-> | ->]; reflexivity.
Qed.

(** X17.  The summary never hides the reason of a rejection: for an outcome
    with [valid == (len(issues) == 0)], a valid one has the VALID status
    line and no Issues section, and an invalid one starts with the INVALID
    status line, the Issues heading and its first issue as item 1. *)
Theorem summary_shows_verdict (r : ValidationResult) :
  invariant r ->
  if valid r then
    summary r
    = lit "Validation Status: VALID" ++ [10%N]
      ++ summary_section (lit "Warnings") (warnings r)
      ++ summary_section (lit "Suggestions") (suggestions r)
  else
    exists first rest,
      issues r = first :: rest
      /\ startswith
           (lit "Validation Status: INVALID" ++ [10%N; 10%N] ++ lit "Issues:"
            ++ [10%N] ++ lit "1. " ++ first ++ [10%N])
           (summary r) = true.
Proof.
  unfold invariant. intro H. unfold summary.
  destruct (valid r); destruct (issues r) as [|first rest] eqn:E;
    try discriminate.
  - reflexivity.
  - exists first, rest. split; [reflexivity|].
    unfold summary_section at 1. cbn [enumerate_from map List.concat fst snd].
    set (tail1 := List.concat _). set (tail2 := summary_section _ _ ++ _).
    assert (A : lit "Validation Status: " ++ lit "INVALID" ++ [10%N]
                ++ ([10%N] ++ lit "Issues" ++ lit ":" ++ [10%N]
                    ++ (str_of_nat 1 ++ lit ". " ++ first ++ [10%N]) ++ tail1)
                ++ tail2
                = (lit "Validation Status: INVALID" ++ [10%N; 10%N] ++ lit "Issues:"
                   ++ [10%N] ++ lit "1. " ++ first ++ [10%N])
                  ++ tail1 ++ tail2).
    { cbn. rewrite <- !app_assoc. reflexivity. }
    rewrite A. apply startswith_app.
Qed.

(** X18.  The report dictionary that [export_report] serialises loses
    nothing of the outcome: two outcomes with the same report are equal. *)
Theorem report_determines_outcome (r1 r2 : ValidationResult) :
  report_of r1 = report_of r2 -> r1 = r2.
Proof.
  assert (Inj : forall l1 l2 : list pystr, map JStr l1 = map JStr l2 -> l1 = l2).
  { induction l1 as [|a l1 IH]; destruct l2 as [|b l2]; cbn; try discriminate;
      [reflexivity|].
    intros [= -> H]. f_equal. now apply IH. }
  destruct r1, r2. unfold report_of. cbn.
  intros [= -> -> Hi Hw Hs ->].
  apply Inj in Hi, Hw, Hs. now subst.
Qed.

(** X19.  A scene file that parses to a bare number other than zero, or to
    [true], is snapshotted and then rejected by the first membership test of
    the required-fields check, which raises [TypeError]: with a non-empty
    list of required names the outcome holds the single unexpected-error
    issue and nothing else. *)
Theorem validate_scalar_scene (w : World) (self : SceneValidator)
    (scene_path : pystr) (scene : json) (name : pystr) (names : list pystr) :
  validation_rule self (lit "required_fields")
  = Ok (JList (map JStr (name :: names))) ->
  read_json w scene_path = Ok scene ->
  py_truthy scene = true ->
  is_numeric scene = true ->
  exists e,
    exn_class_of e = TypeError
    /\ py_contains scene (JStr name) = Raise e
    /\ validate w self scene_path
       = add_issue (lit "Unexpected error during validation: " ++ str_exn e)
           (set_scene_data scene (new_ValidationResult (clock w))).
Proof.
  intros Hreq Hread Ht Hnum.
  rewrite (validate_of_rule_checks _ _ _ _ Hread Ht).
  unfold rule_checks, _validate_required_fields, bind, eval.
  rewrite Hreq. cbn [py_iter map for_each]. unfold bind, eval.
  destruct scene; try discriminate;
    (eexists; split; [|split; reflexivity]; reflexivity).
Qed.


(** ** Further properties: size and composition *)

Lemma any_element_effect_bounds types r ie :
  (List.length (issues (any_element_effect types r ie))
   <= S (List.length (issues r)))%nat
  /\ (List.length (warnings (any_element_effect types r ie))
      <= S (List.length (warnings r)))%nat.
Proof.
  unfold any_element_effect, element_effect, id_step, type_step.
  destruct ie as [i el]. cbn [fst snd].
  assert (L : forall (l : list pystr) x,
                 List.length (l ++ [x]) = S (List.length l))
    by (intros; rewrite length_app; cbn; lia).
  destruct el; cbn [issues warnings add_issue add_warning]; rewrite ?L;
    try lia.
  destruct (dict_get (lit "type") d) as [ty|];
    [|cbn [issues warnings add_issue add_warning]; rewrite ?L; lia].
  destruct (existsb (fun x => py_eq x ty) (map JStr types));
    destruct (dict_has (lit "id") d);
    cbn [issues warnings add_issue add_warning]; rewrite ?L; lia.
Qed.

Lemma elements_fold_bounds types els : forall i r,
  (List.length (issues (fold_left (any_element_effect types) (enumerate_from i els) r))
   <= List.length (issues r) + List.length els)%nat
  /\ (List.length (warnings (fold_left (any_element_effect types)
                                (enumerate_from i els) r))
      <= List.length (warnings r) + List.length els)%nat.
Proof.
  induction els as [|el els IH]; intros i r; cbn [enumerate_from fold_left].
  - cbn. lia.
  - destruct (IH (S i) (any_element_effect types r (i, el))) as [Hi Hw].
    destruct (any_element_effect_bounds types r (i, el)) as [Bi Bw].
    cbn [List.length]. lia.
Qed.

(** X20.  With well-formed element rules, the element check of a list of n
    elements files at most n issues and at most n + 1 warnings: one issue
    and one warning per element at most, and the count warning. *)
Theorem elements_check_bounds (self : SceneValidator) (types : list pystr)
    (max : json) (d : list (pystr * json)) (els : list json)
    (r : ValidationResult) :
  validation_rule self (lit "allowed_element_types") = Ok (JList (map JStr types)) ->
  validation_rule self (lit "max_elements_per_scene") = Ok max ->
  is_numeric max = true ->
  dict_get (lit "elements") d = Some (JList els) ->
  let run := _validate_elements self (JDict d) r in
  (List.length (issues (fst run)) <= List.length (issues r) + List.length els)%nat
  /\ (List.length (warnings (fst run))
      <= List.length (warnings r) + 1 + List.length els)%nat.
Proof.
  intros Ha Hmax Hnum Hel run. unfold run.
  rewrite (elements_check_effect _ _ _ _ r Ha Hmax Hnum). cbn [fst].
  unfold elements_effect. rewrite Hel. unfold enumerate.
  destruct (elements_fold_bounds types els 0 (count_step max els r)) as [Hi Hw].
  unfold count_step in *.
  destruct (num_lt max (JInt (Z.of_nat (List.length els)))); cbn in *;
    rewrite ?length_app in *; cbn in *; lia.
Qed.

(** X21.  With well-formed rules and a non-empty record whose duration, if
    present, is a number and whose name, if present, is a string, no check
    raises and the outcome of [validate] is the composition of the four
    steps: the snapshot, the missing-field issues in configured order, the
    duration and name warnings, the element findings, and last what the
    advisory pass adds. *)
Theorem validate_typed_record (w : World) (self : SceneValidator)
    (scene_path : pystr) (names types : list pystr) (max m : json)
    (d : list (pystr * json)) :
  validation_rule self (lit "required_fields") = Ok (JList (map JStr names)) ->
  validation_rule self (lit "allowed_element_types") = Ok (JList (map JStr types)) ->
  validation_rule self (lit "max_elements_per_scene") = Ok max ->
  is_numeric max = true ->
  validation_rule self (lit "min_scene_duration") = Ok m ->
  is_numeric m = true ->
  read_json w scene_path = Ok (JDict d) ->
  d <> [] ->
  (forall v, dict_get (lit "duration") d = Some v -> is_numeric v = true) ->
  (forall v, dict_get (lit "name") d = Some v -> is_str v = true) ->
  let snapshot := set_scene_data (JDict d) (new_ValidationResult (clock w)) in
  let after_fields :=
    apply_ops
      (map (fun n => AddIssue (lit "Missing required field: " ++ n))
         (missing_fields d names)) snapshot in
  let after_structure := name_step d (duration_step m d after_fields) in
  let after_elements := elements_effect types max d after_structure in
  rule_checks self (JDict d) snapshot = (after_elements, Ok tt)
  /\ validate w self scene_path = fst (advisory_pass self (JDict d) after_elements).
Proof.
  intros Hreq Hall Hmax Hnmax Hmin Hnmin Hread Hd Hdur Hname.
  intros snapshot after_fields after_structure after_elements.
  assert (Ht : py_truthy (JDict d) = true) by (destruct d; [contradiction | reflexivity]).
  assert (E : rule_checks self (JDict d) snapshot = (after_elements, Ok tt)).
  { unfold rule_checks, bind.
    rewrite (required_fields_effect _ _ _ _ Hreq). fold after_fields.
    rewrite (structure_check_effect self d m after_fields Hmin Hnmin Hdur Hname).
    fold after_structure.
    apply (elements_check_effect _ _ _ _ _ Hall Hmax Hnmax). }
  split; [exact E|].
  rewrite (validate_of_rule_checks _ _ _ _ Hread Ht). fold snapshot.
  now rewrite E.
Qed.

End Validator.

(** ** Concrete runs *)

Example default_validator_built :
  SceneValidator_init (sample_world []) None = Ok default_validator.
Proof. reflexivity. Qed.

(** Scenarios A to E of the specification. *)
Example scenario_valid_scene :
  let result :=
    validate sample_repr sample_dumps (sample_world [(lit "scene.json", intro_scene)])
      default_validator (lit "scene.json") in
  valid result = true /\ issues result = [] /\ warnings result = []
  /\ scene_data result = intro_scene.
Proof. vm_compute. repeat split. Qed.

Example scenario_missing_elements :
  let scene :=
    JDict [ (lit "id", JStr (lit "s1")); (lit "name", JStr (lit "Intro"));
            (lit "duration", JInt 5) ] in
  let result :=
    validate sample_repr sample_dumps (sample_world [(lit "scene.json", scene)])
      default_validator (lit "scene.json") in
  valid result = false
  /\ issues result = [lit "Missing required field: elements"].
Proof. vm_compute. repeat split. Qed.

Example scenario_short_duration :
  let scene :=
    JDict [ (lit "id", JStr (lit "s1")); (lit "name", JStr (lit "Intro"));
            (lit "duration", JFloat (FFin (1 # 2))); (lit "elements", JList []) ] in
  let result :=
    validate sample_repr sample_dumps (sample_world [(lit "scene.json", scene)])
      default_validator (lit "scene.json") in
  valid result = true
  /\ issues result = []
  /\ warnings result
     = [lit "Scene duration (0.5s) is less than minimum recommended (1.0s)"].
Proof. vm_compute. repeat split. Qed.

Example scenario_invalid_type :
  let result :=
    validate sample_repr sample_dumps (sample_world [(lit "scene.json", vehicle_scene)])
      default_validator (lit "scene.json") in
  issues result
  = [lit "Element at index 0 has invalid type: vehicle. Allowed types: character, prop, environment, effect"]
  /\ warnings result = [lit "Element at index 0 is missing an ID"].
Proof. vm_compute. repeat split. Qed.

Example scenario_service_unreachable :
  let result :=
    validate sample_repr sample_dumps (sample_world [(lit "scene.json", intro_scene)])
      offline_validator (lit "scene.json") in
  valid result = true
  /\ issues result = []
  /\ warnings result
     = [lit "Could not perform Gemini-based validation: 503 Service Unavailable"].
Proof. vm_compute. repeat split. Qed.

Example parse_bulleted_response :
  _parse_gemini_response
    (text_of_lines
       [ lit "Suggestions:"; bullet :: lit " add a prop "; lit "- ";
         lit "  2. check continuity. twice"; lit "4. ignored"; lit "*tighten" ])
  = [lit "add a prop"; lit "check continuity. twice"; lit "tighten"].
Proof. reflexivity. Qed.

(** A scene file holding the empty record [{}] is falsy: [validate] returns
    before the snapshot and the checks, with a valid, empty outcome. *)
Example validate_empty_record :
  let result :=
    validate sample_repr sample_dumps (sample_world [(lit "scene.json", JDict [])])
      default_validator (lit "scene.json") in
  valid result = true /\ issues result = [] /\ scene_data result = JNull.
Proof. vm_compute. repeat split. Qed.

(** C4, at a fresh outcome to which a warning and an issue are added. *)
Lemma valid_flag_invariant_witness :
  invariant (new_ValidationResult (lit "t"))
  /\ invariant (apply_ops [AddWarning (lit "w"); AddIssue (lit "i")]
                  (new_ValidationResult (lit "t"))).
Proof.
  split; [reflexivity|].
  exact (proj1 (valid_flag_invariant (new_ValidationResult (lit "t"))
                  [AddWarning (lit "w"); AddIssue (lit "i")] eq_refl)).
Defined.

(** C5, at the default configuration and a record with 'id' and 'duration'. *)
Lemma required_fields_check_witness :
  validation_rule default_validator (lit "required_fields")
  = Ok (JList (map JStr [lit "id"; lit "name"; lit "duration"; lit "elements"]))
  /\ invariant (new_ValidationResult (lit "t"))
  /\ issues (fst (_validate_required_fields sample_repr default_validator
                    short_scene (new_ValidationResult (lit "t"))))
     = [] ++ map (fun n => lit "Missing required field: " ++ n)
               (missing_fields
                  [ (lit "id", JStr (lit "s1"));
                    (lit "duration", JFloat (FFin (1 # 2))) ]
                  [lit "id"; lit "name"; lit "duration"; lit "elements"]).
Proof.
  split; [reflexivity|]. split; [reflexivity|].
  exact (proj1 (proj2 (required_fields_check sample_repr default_validator
                         [ (lit "id", JStr (lit "s1"));
                           (lit "duration", JFloat (FFin (1 # 2))) ]
                         [lit "id"; lit "name"; lit "duration"; lit "elements"]
                         (new_ValidationResult (lit "t")) eq_refl eq_refl))).
Defined.

(** C7, at a validator whose service answers every call with an error. *)
Lemma gemini_failure_is_one_warning_witness :
  ask_gemini offline_validator (_generate_gemini_prompt sample_dumps short_scene)
  = Raise unreachable_service
  /\ warnings (fst (_perform_gemini_validation sample_dumps offline_validator
                      short_scene (new_ValidationResult (lit "t"))))
     = [] ++ [lit "Could not perform Gemini-based validation: "
              ++ str_exn unreachable_service].
Proof.
  split; [reflexivity|].
  exact (proj1 (proj2 (gemini_failure_is_one_warning sample_dumps
                         offline_validator short_scene
                         (new_ValidationResult (lit "t")) unreachable_service
                         eq_refl))).
Defined.

(** C6, at a scene whose name is the number 5. *)
Lemma unexpected_error_is_caught_witness :
  let w := sample_world [(lit "scene.json", bad_name_scene)] in
  let stopped :=
    after_load sample_repr sample_dumps default_validator bad_name_scene
      (new_ValidationResult (clock w)) in
  read_json w (lit "scene.json") = Ok bad_name_scene
  /\ py_truthy bad_name_scene = true
  /\ stopped = (fst stopped, Raise (no_strip (JInt 5)))
  /\ validate sample_repr sample_dumps w default_validator (lit "scene.json")
     = add_issue (unexpected_error_issue (no_strip (JInt 5))) (fst stopped).
Proof.
  intros w stopped.
  assert (H : stopped = (fst stopped, Raise (no_strip (JInt 5))))
    by (vm_compute; reflexivity).
  split; [reflexivity|]. split; [reflexivity|]. split; [exact H|].
  exact (proj1 (proj2 (unexpected_error_is_caught sample_repr sample_dumps w
                         default_validator (lit "scene.json") bad_name_scene
                         (fst stopped) (no_strip (JInt 5)) eq_refl eq_refl H))).
Defined.

(** C10, at the same scene. *)
Lemma non_string_name_aborts_witness :
  let w := sample_world [(lit "scene.json", bad_name_scene)] in
  read_json w (lit "scene.json") = Ok bad_name_scene
  /\ dict_get (lit "name") [ (lit "name", JInt 5); (lit "elements", JInt 7) ]
     = Some (JInt 5)
  /\ is_str (JInt 5) = false
  /\ valid (validate sample_repr sample_dumps w default_validator (lit "scene.json"))
     = false.
Proof.
  intro w.
  split; [reflexivity|]. split; [reflexivity|]. split; [reflexivity|].
  exact (proj1 (proj2 (proj2 (proj2
           (non_string_name_aborts sample_repr sample_dumps w default_validator
              (lit "scene.json")
              [ (lit "name", JInt 5); (lit "elements", JInt 7) ] (JInt 5)
              eq_refl eq_refl eq_refl))))).
Defined.


(** C1 as stated fails: the scene file parses to a record whose name is a
    number; the structure check raises, so the element check, which would
    report that 'elements' is not a list, is not run. *)
Lemma validate_stops_at_raising_check :
  let w := sample_world [(lit "scene.json", bad_name_scene)] in
  let result :=
    validate sample_repr sample_dumps w default_validator (lit "scene.json") in
  read_json w (lit "scene.json") = Ok bad_name_scene
  /\ scene_data result = bad_name_scene
  /\ issues result
     = [ lit "Missing required field: id";
         lit "Missing required field: duration";
         lit "Unexpected error during validation: 'int' object has no attribute 'strip'" ]
  /\ (forall r,
        _validate_elements sample_repr default_validator bad_name_scene r
        = (add_issue (lit "Scene elements must be a list") r, Ok tt))
  /\ ~ In (lit "Scene elements must be a list") (issues result).
Proof.
  intros w result.
  split; [reflexivity|]. split; [reflexivity|]. split; [reflexivity|].
  split; [intro r; reflexivity|].
  vm_compute. intuition discriminate.
Qed.

(** C2 as stated fails: an element without 'type' and without 'id' gets the
    missing-type issue and no missing-id warning. *)
Lemma missing_type_skips_id_warning :
  let result :=
    fst (_validate_elements sample_repr default_validator typeless_scene
           (new_ValidationResult (lit "t"))) in
  dict_has (lit "id") [] = false
  /\ issues result = [lit "Element at index 0 is missing a type"]
  /\ warnings result = []
  /\ ~ In (lit "Element at index 0 is missing an ID") (warnings result).
Proof.
  intro result.
  split; [reflexivity|]. split; [reflexivity|]. split; [reflexivity|].
  intros [].
Qed.


(** C9 as stated fails: with a ".json" path in a directory that does not
    exist, opening the file raises; [export_report] raises although the
    format is supported. *)
Lemma export_json_unwritable :
  let path := lit "/missing/report.json" in
  let w :=
    {| clock := lit "2024-05-01T12:00:00";
       read_json := fun p => Raise (no_such_file p);
       environ_GEMINI_API_KEY := None;
       genai_configure := fun _ => Ok tt;
       genai_GenerativeModel := fun _ => Raise unreachable_service;
       open_w_error := fun p => Some (no_such_file p);
       write_error := fun _ _ => None;
       print_error := fun _ => None |} in
  let run := export_report sample_dumps w (new_ValidationResult (clock w)) path [] in
  endswith (lit ".json") path = true
  /\ snd run = Raise (no_such_file path)
  /\ raises (snd run) = true.
Proof. intros path w run. repeat split. Qed.

(** ** Concrete runs of the further properties *)

(** X2, at a scene file holding the empty object. *)
Lemma validate_falsy_scene_witness :
  let w := sample_world [(lit "scene.json", JDict [])] in
  read_json w (lit "scene.json") = Ok (JDict [])
  /\ py_truthy (JDict []) = false
  /\ validate sample_repr sample_dumps w default_validator (lit "scene.json")
     = new_ValidationResult (clock w).
Proof.
  intro w. split; [reflexivity|]. split; [reflexivity|].
  exact (proj1 (validate_falsy_scene sample_repr sample_dumps w default_validator
                  (lit "scene.json") (JDict []) eq_refl eq_refl)).
Defined.

(** X5, at a one-line answer. *)
Lemma parsed_suggestions_are_trimmed_witness :
  In (lit "add a prop") (_parse_gemini_response (lit "- add a prop "))
  /\ strip (lit "add a prop") = lit "add a prop".
Proof.
  assert (H : In (lit "add a prop") (_parse_gemini_response (lit "- add a prop ")))
    by (left; reflexivity).
  split; [exact H|].
  exact (proj1 (proj2 (parsed_suggestions_are_trimmed _ _ H))).
Defined.

(** X7, at a record with a duration of half a second and no name. *)
Lemma structure_check_spec_witness :
  validation_rule default_validator (lit "min_scene_duration")
  = Ok (JFloat (FFin (1 # 1)))
  /\ is_numeric (JFloat (FFin (1 # 1))) = true
  /\ warnings (fst (_validate_scene_structure sample_repr default_validator
                      (JDict short_record) (new_ValidationResult (lit "t"))))
     = [lit "Scene duration (0.5s) is less than minimum recommended (1.0s)"].
Proof.
  split; [reflexivity|]. split; [reflexivity|].
  assert (Hd : forall v, dict_get (lit "duration") short_record = Some v ->
                         is_numeric v = true)
    by (intros v H; vm_compute in H; injection H as <-; reflexivity).
  assert (Hn : forall v, dict_get (lit "name") short_record = Some v ->
                         is_str v = true)
    by (intros v H; vm_compute in H; discriminate).
  rewrite (structure_check_spec sample_repr default_validator short_record
             (JFloat (FFin (1 # 1))) (new_ValidationResult (lit "t"))
             eq_refl eq_refl Hd Hn).
  reflexivity.
Defined.

(** X8, at a record with one element of type "vehicle". *)
Lemma elements_check_spec_witness :
  validation_rule default_validator (lit "allowed_element_types")
  = Ok (JList (map JStr default_types))
  /\ validation_rule default_validator (lit "max_elements_per_scene") = Ok (JInt 50)
  /\ is_numeric (JInt 50) = true
  /\ warnings (fst (_validate_elements sample_repr default_validator
                      (JDict vehicle_record) (new_ValidationResult (lit "t"))))
     = [lit "Element at index 0 is missing an ID"].
Proof.
  split; [reflexivity|]. split; [reflexivity|]. split; [reflexivity|].
  rewrite (elements_check_spec sample_repr default_validator default_types
             (JInt 50) vehicle_record (new_ValidationResult (lit "t"))
             eq_refl eq_refl eq_refl).
  reflexivity.
Defined.

(** X9, at the built-in rules and the record of scenario A. *)
Lemma verdict_characterised_witness :
  let w := sample_world [(lit "scene.json", JDict intro_record)] in
  read_json w (lit "scene.json") = Ok (JDict intro_record)
  /\ intro_record <> []
  /\ valid (validate sample_repr sample_dumps w default_validator (lit "scene.json"))
     = record_accepted default_names default_types intro_record.
Proof.
  intro w.
  assert (H : intro_record <> []) by discriminate.
  split; [reflexivity|]. split; [exact H|].
  exact (verdict_characterised sample_repr sample_dumps w default_validator
           (lit "scene.json") default_names default_types (JInt 50)
           (JFloat (FFin (1 # 1))) intro_record
           eq_refl eq_refl eq_refl eq_refl eq_refl eq_refl eq_refl H).
Defined.

(** X10, at the same record. *)
Lemma clean_record_no_findings_witness :
  let w := sample_world [(lit "scene.json", JDict intro_record)] in
  record_clean default_names default_types (JInt 50) (JFloat (FFin (1 # 1)))
    intro_record = true
  /\ intro_record <> []
  /\ valid (validate sample_repr sample_dumps w default_validator (lit "scene.json"))
     = true.
Proof.
  intro w.
  assert (H : intro_record <> []) by discriminate.
  split; [reflexivity|]. split; [exact H|].
  exact (proj1 (proj2
           (clean_record_no_findings sample_repr sample_dumps w default_validator
              (lit "scene.json") default_names default_types (JInt 50)
              (JFloat (FFin (1 # 1))) intro_record
              eq_refl eq_refl eq_refl eq_refl eq_refl eq_refl eq_refl H eq_refl))).
Defined.

(** X11, without a path. *)
Lemma constructor_without_config_witness :
  (@None pystr = None \/ @None pystr = Some [])
  /\ exists self,
       SceneValidator_init (sample_world []) None = Ok self
       /\ config self = default_config.
Proof.
  split; [now left|].
  exact (constructor_without_config (sample_world []) None (or_introl eq_refl)).
Defined.

(** X12, in a world without API key. *)
Lemma constructor_gemini_handle_witness :
  SceneValidator_init (sample_world []) None = Ok default_validator
  /\ default_validator = without_gemini default_validator.
Proof.
  split; [reflexivity|].
  exact (proj1 (proj2 (constructor_gemini_handle sample_repr sample_dumps
                         (sample_world []) None default_validator eq_refl)
                  eq_refl)).
Defined.

(** X13, at a configuration file holding an empty list. *)
Lemma constructor_rejects_non_object_config_witness :
  let w := sample_world [(lit "rules.json", JList [])] in
  lit "rules.json" <> []
  /\ read_json w (lit "rules.json") = Ok (JList [])
  /\ SceneValidator_init w (Some (lit "rules.json"))
     = Raise (Exn AttributeError (lit "'list' object has no attribute 'get'")).
Proof.
  intro w.
  assert (H : lit "rules.json" <> []) by discriminate.
  split; [exact H|]. split; [reflexivity|].
  exact (constructor_rejects_non_object_config w (lit "rules.json") (JList [])
           H eq_refl).
Defined.

(** X14, at the empty configuration object. *)
Lemma config_without_rules_witness :
  let w := sample_world [(lit "scene.json", short_scene)] in
  config ruleless_validator = JDict []
  /\ read_json w (lit "scene.json") = Ok short_scene
  /\ py_truthy short_scene = true
  /\ issues (validate sample_repr sample_dumps w ruleless_validator (lit "scene.json"))
     = [lit "Unexpected error during validation: 'validation_rules'"].
Proof.
  intro w. split; [reflexivity|]. split; [reflexivity|]. split; [reflexivity|].
  rewrite (config_without_rules sample_repr sample_dumps w ruleless_validator []
             (lit "scene.json") short_scene eq_refl eq_refl eq_refl eq_refl).
  reflexivity.
Defined.

(** X15, at an HTML report asked for under the name "out.json". *)
Lemma main_writes_requested_format_witness :
  let w := sample_world [(lit "scene.json", intro_scene)] in
  arg_output report_args = Some (lit "out.json")
  /\ lit "out.json" <> []
  /\ report_path (lit "out.json") FormatHtml = lit "out.json.html"
  /\ endswith (lit "." ++ format_name (arg_format report_args))
       (report_path (lit "out.json") (arg_format report_args)) = true.
Proof.
  intro w.
  assert (H : lit "out.json" <> []) by discriminate.
  split; [reflexivity|]. split; [exact H|]. split; [reflexivity|].
  exact (proj1 (main_writes_requested_format sample_repr sample_dumps w report_args
                  [] (lit "out.json") eq_refl H)).
Defined.

(** X16, in a world without files. *)
Lemma main_missing_scene_file_witness :
  (arg_config plain_args = None \/ arg_config plain_args = Some [])
  /\ (arg_output plain_args = None \/ arg_output plain_args = Some [])
  /\ read_json (sample_world []) (arg_scene_path plain_args)
     = Raise (no_such_file (lit "scene.json"))
  /\ exn_class_of (no_such_file (lit "scene.json")) = FileNotFoundError
  /\ snd (main sample_repr sample_dumps (sample_world []) plain_args []) = Ok tt.
Proof.
  split; [now left|]. split; [now left|]. split; [reflexivity|].
  split; [reflexivity|].
  rewrite (main_missing_scene_file sample_repr sample_dumps (sample_world [])
             plain_args [] (no_such_file (lit "scene.json"))
             (or_introl eq_refl) (or_introl eq_refl) eq_refl eq_refl).
  reflexivity.
Defined.

(** X17, at an outcome with one issue. *)
Lemma summary_shows_verdict_witness :
  let r := add_issue (lit "Missing required field: id") (new_ValidationResult (lit "t")) in
  invariant r
  /\ exists first rest,
       issues r = first :: rest
       /\ startswith
            (lit "Validation Status: INVALID" ++ [10%N; 10%N] ++ lit "Issues:"
             ++ [10%N] ++ lit "1. " ++ first ++ [10%N])
            (summary r) = true.
Proof.
  intro r. split; [reflexivity|].
  exact (summary_shows_verdict r eq_refl).
Defined.

(** X18, at a fresh outcome. *)
Lemma report_determines_outcome_witness :
  report_of (new_ValidationResult (lit "t")) = report_of (new_ValidationResult (lit "t"))
  /\ new_ValidationResult (lit "t") = new_ValidationResult (lit "t").
Proof.
  split; [reflexivity|].
  exact (report_determines_outcome _ _ eq_refl).
Defined.

(** X19, at a scene file holding the number 7. *)
Lemma validate_scalar_scene_witness :
  let w := sample_world [(lit "scene.json", JInt 7)] in
  validation_rule default_validator (lit "required_fields")
  = Ok (JList (map JStr default_names))
  /\ read_json w (lit "scene.json") = Ok (JInt 7)
  /\ py_truthy (JInt 7) = true
  /\ is_numeric (JInt 7) = true
  /\ exists e,
       exn_class_of e = TypeError
       /\ py_contains (JInt 7) (JStr (lit "id")) = Raise e
       /\ validate sample_repr sample_dumps w default_validator (lit "scene.json")
          = add_issue (lit "Unexpected error during validation: " ++ str_exn e)
              (set_scene_data (JInt 7) (new_ValidationResult (clock w))).
Proof.
  intro w. split; [reflexivity|]. split; [reflexivity|]. split; [reflexivity|].
  split; [reflexivity|].
  exact (validate_scalar_scene sample_repr sample_dumps w default_validator
           (lit "scene.json") (JInt 7) (lit "id")
           [lit "name"; lit "duration"; lit "elements"]
           eq_refl eq_refl eq_refl eq_refl).
Defined.

(** X20, at a record with one element. *)
Lemma elements_check_bounds_witness :
  dict_get (lit "elements") vehicle_record
  = Some (JList [JDict [ (lit "type", JStr (lit "vehicle")) ]])
  /\ (List.length
        (issues (fst (_validate_elements sample_repr default_validator
                        (JDict vehicle_record) (new_ValidationResult (lit "t")))))
      <= 0 + 1)%nat.
Proof.
  split; [reflexivity|].
  exact (proj1 (elements_check_bounds sample_repr default_validator default_types
                  (JInt 50) vehicle_record
                  [JDict [ (lit "type", JStr (lit "vehicle")) ]]
                  (new_ValidationResult (lit "t"))
                  eq_refl eq_refl eq_refl eq_refl)).
Defined.

(** X21, at the record of scenario A. *)
Lemma validate_typed_record_witness :
  let w := sample_world [(lit "scene.json", JDict intro_record)] in
  read_json w (lit "scene.json") = Ok (JDict intro_record)
  /\ intro_record <> []
  /\ snd (rule_checks sample_repr default_validator (JDict intro_record)
            (set_scene_data (JDict intro_record) (new_ValidationResult (clock w))))
     = Ok tt.
Proof.
  intro w.
  assert (H : intro_record <> []) by discriminate.
  assert (Hd : forall v, dict_get (lit "duration") intro_record = Some v ->
                         is_numeric v = true)
    by (intros v E; vm_compute in E; injection E as <-; reflexivity).
  assert (Hn : forall v, dict_get (lit "name") intro_record = Some v ->
                         is_str v = true)
    by (intros v E; vm_compute in E; injection E as <-; reflexivity).
  split; [reflexivity|]. split; [exact H|].
  rewrite (proj1 (validate_typed_record sample_repr sample_dumps w default_validator
                    (lit "scene.json") default_names default_types (JInt 50)
                    (JFloat (FFin (1 # 1))) intro_record
                    eq_refl eq_refl eq_refl eq_refl eq_refl eq_refl eq_refl H Hd Hn)).
  reflexivity.
Defined.
